(** * Truss_stem.py: the truss importer, its geometry and its report

    A shallow embedding of [src/HW9SH/Truss_stem.py].

    - Python [float] is IEEE binary64, i.e. Rocq's primitive [float]:
      [+], [-], [*], the comparisons and [==] are the primitive ones, and
      [/] is the primitive division behind Python's zero-divisor check.
    - The interpreter's library routines that have no primitive counterpart
      ([**] on floats, [math.acos], [float(str)], ['{:0.2f}'.format]) are the
      fields of the class [Builtins]; the Qt scene is the class [SceneSink].
      Theorems hold for every instance; what a concrete run needs of them is
      a hypothesis of the theorem about that run.
    - A Python exception is a value of [exn]; a method that mutates [self]
      is a function from the object's state to an outcome and the state the
      object is left in, so that what was written before a raise stays
      written.
    - [str] is [string]: characters are the code points 0..255. *)

From Stdlib Require Import ZArith List String Ascii Bool Lia.
From Stdlib Require Import Floats DecimalString.
Import ListNotations.

(* ================================================================= *)
(** ** Exceptions and the state-and-exception monad *)

Inductive exn : Set :=
| ValueError | IndexError | TypeError | AttributeError
| OverflowError | ZeroDivisionError.

Inductive result (A : Type) : Type :=
| Ok (a : A)
| Raise (e : exn).

Arguments Ok {A} a.
Arguments Raise {A} e.

Definition rbind {A B} (r : result A) (k : A -> result B) : result B :=
  match r with
  | Ok a => k a
  | Raise e => Raise e
  end.

(** A method on an object whose state has type [S]. *)
Definition M (S A : Type) : Type := S -> result A * S.

Definition ret {S A} (a : A) : M S A := fun s => (Ok a, s).

Definition bind {S A B} (m : M S A) (k : A -> M S B) : M S B :=
  fun s =>
    match m s with
    | (Ok a, s') => k a s'
    | (Raise e, s') => (Raise e, s')
    end.

Definition lift {S A} (r : result A) : M S A := fun s => (r, s).

Definition get {S} : M S S := fun s => (Ok s, s).

Definition modify {S} (f : S -> S) : M S unit := fun s => (Ok tt, f s).

Declare Scope py_scope.
Delimit Scope py_scope with py.
Notation "x <- m ;; k" := (bind m (fun x => k))
  (at level 61, m at next level, right associativity) : py_scope.
Notation "m ;;; k" := (bind m (fun _ => k))
  (at level 61, right associativity) : py_scope.
Notation "x <~ r ;; k" := (rbind r (fun x => k))
  (at level 61, r at next level, right associativity) : py_scope.

(** [for a in xs: body(a)], stopping at the first raise. *)
Fixpoint for_each {S A} (xs : list A) (body : A -> M S unit) : M S unit :=
  match xs with
  | [] => ret tt
  | a :: rest => bind (body a) (fun _ => for_each rest body)
  end.

(* ================================================================= *)
(** ** Python strings *)

Module PyStr.

Definition TAB : string := String (ascii_of_nat 9) EmptyString.
Definition NL : string := String (ascii_of_nat 10) EmptyString.

Definition is_empty (s : string) : bool :=
  match s with EmptyString => true | String _ _ => false end.

(** [str.isspace] on the code points below 256. *)
Definition is_space (c : ascii) : bool :=
  let n := nat_of_ascii c in
  ((9 <=? n) && (n <=? 13)) || ((28 <=? n) && (n <=? 32))
  || (n =? 133) || (n =? 160).

Definition lower_char (c : ascii) : ascii :=
  let n := nat_of_ascii c in
  if ((65 <=? n) && (n <=? 90)) || ((192 <=? n) && (n <=? 214))
     || ((216 <=? n) && (n <=? 222))
  then ascii_of_nat (n + 32) else c.

(** [s.lower()] *)
Fixpoint lower (s : string) : string :=
  match s with
  | EmptyString => EmptyString
  | String c s' => String (lower_char c) (lower s')
  end.

Fixpoint lstrip_by (p : ascii -> bool) (s : string) : string :=
  match s with
  | EmptyString => EmptyString
  | String c s' => if p c then lstrip_by p s' else s
  end.

Fixpoint rstrip_by (p : ascii -> bool) (s : string) : string :=
  match s with
  | EmptyString => EmptyString
  | String c s' =>
      let r := rstrip_by p s' in
      if is_empty r && p c then EmptyString else String c r
  end.

(** [s.strip()] *)
Definition strip (s : string) : string :=
  rstrip_by is_space (lstrip_by is_space s).

(** [s.strip(c)] for a one-character argument *)
Definition strip_char (c : ascii) (s : string) : string :=
  rstrip_by (Ascii.eqb c) (lstrip_by (Ascii.eqb c) s).

(** [s.find(sub)]: the least index where [sub] occurs, or -1 *)
Fixpoint find (sub s : string) : Z :=
  if String.prefix sub s then 0%Z
  else match s with
       | EmptyString => (-1)%Z
       | String _ s' =>
           let r := find sub s' in
           if (r <? 0)%Z then (-1)%Z else (r + 1)%Z
       end.

Fixpoint split_ws_aux (s cur : string) : list string :=
  match s with
  | EmptyString => if is_empty cur then [] else [cur]
  | String c s' =>
      if is_space c
      then (if is_empty cur then split_ws_aux s' EmptyString
            else cur :: split_ws_aux s' EmptyString)
      else split_ws_aux s' (cur ++ String c EmptyString)
  end.

(** [s.split()] *)
Definition split (s : string) : list string := split_ws_aux s EmptyString.

Fixpoint split_on_aux (sep : ascii) (s cur : string) : list string :=
  match s with
  | EmptyString => [cur]
  | String c s' =>
      if Ascii.eqb c sep then cur :: split_on_aux sep s' EmptyString
      else split_on_aux sep s' (cur ++ String c EmptyString)
  end.

(** [s.split(sep)] for a one-character separator *)
Definition split_on (sep : ascii) (s : string) : list string :=
  split_on_aux sep s EmptyString.

(** [sep.join(xs)] *)
Fixpoint join (sep : string) (xs : list string) : string :=
  match xs with
  | [] => EmptyString
  | [a] => a
  | a :: rest => a ++ sep ++ join sep rest
  end.

(** [xs[i]] *)
Definition index (xs : list string) (i : nat) : result string :=
  match nth_error xs i with
  | Some a => Ok a
  | None => Raise IndexError
  end.

(** [xs[i:j]] for [0 <= i <= j] *)
Definition slice (xs : list string) (i j : nat) : list string :=
  firstn (j - i) (skipn i xs).

(** ['{}'.format(v)] for a value that is a string or [None] *)
Definition str_of (v : option string) : string :=
  match v with
  | Some s => s
  | None => "None"
  end.

End PyStr.

(* ================================================================= *)
(** ** The interpreter's numeric routines *)

Class Builtins : Type := {
  (** [a ** b] on floats; an int exponent is converted first *)
  float_pow : float -> float -> result float;
  (** [math.acos] *)
  math_acos : float -> result float;
  (** [float(s)] *)
  float_of_string : string -> result float;
  (** ['{:0.2f}'.format(v)] for a number [v] *)
  format_2f : float -> string
}.

Module PyNum.

(** [math.pi] *)
Definition pi : float := 0x1.921fb54442d18p+1%float.

(** [a / b] *)
Definition truediv (a b : float) : result float :=
  if (b =? 0)%float then Raise ZeroDivisionError else Ok (a / b)%float.

(** [a != b] *)
Definition ne (a b : float) : bool := negb (a =? b)%float.

(** [a != b] where either side may be [None] *)
Definition ne_opt (a b : option float) : bool :=
  match a, b with
  | Some u, Some v => ne u v
  | None, None => false
  | _, _ => true
  end.

(** [a > b] where either side may be [None]: ordering [None] raises *)
Definition gt_opt (a b : option float) : result bool :=
  match a, b with
  | Some u, Some v => Ok (v <? u)%float
  | _, _ => Raise TypeError
  end.

(** ['{:0.2f}'.format(v)]: [None] has no such format *)
Definition fmt_2f `{Builtins} (v : option float) : result string :=
  match v with
  | Some f => Ok (format_2f f)
  | None => Raise TypeError
  end.

End PyNum.

(* ================================================================= *)
(** ** class Position *)

Module Position.

Record t : Set := mk { x : float; y : float; z : float }.

Definition set_x (v : float) (self : t) : t := mk v (y self) (z self).
Definition set_y (v : float) (self : t) : t := mk (x self) v (z self).
Definition set_z (v : float) (self : t) : t := mk (x self) (y self) v.

(** [Position(pos, x, y, z)]: defaults, then the tuple, then the
    components given explicitly. *)
Definition __init__ (pos : option (float * float * float))
    (ax ay az : option float) : t :=
  let self := mk 0 0 0 in
  let self := match pos with
              | Some (px, py, pz) => mk px py pz
              | None => self
              end in
  let self := set_x (match ax with Some v => v | None => x self end) self in
  let self := set_y (match ay with Some v => v | None => y self end) self in
  set_z (match az with Some v => v | None => z self end) self.

Definition __eq__ (self other : t) : bool :=
  if PyNum.ne (x self) (x other) then false
  else if PyNum.ne (y self) (y other) then false
  else if PyNum.ne (z self) (z other) then false
  else true.

Definition __sub__ (self other : t) : t :=
  __init__ (Some ((x self - x other)%float, (y self - y other)%float,
                  (z self - z other)%float)) None None None.

(** [self /= other] for a float [other], component after component *)
Definition __idiv__ (other : float) : M t unit :=
  (self <- get ;; vx <- lift (PyNum.truediv (x self) other) ;;
   modify (set_x vx) ;;;
   self <- get ;; vy <- lift (PyNum.truediv (y self) other) ;;
   modify (set_y vy) ;;;
   self <- get ;; vz <- lift (PyNum.truediv (z self) other) ;;
   modify (set_z vz))%py.

Section WithBuiltins.
Context `{B : Builtins}.

(** [(self.x ** 2 + self.y ** 2 + self.z ** 2) ** 0.5] *)
Definition mag (self : t) : result float :=
  (a <~ float_pow (x self) 2 ;;
   b <~ float_pow (y self) 2 ;;
   c <~ float_pow (z self) 2 ;;
   float_pow (a + b + c)%float 0.5%float)%py.

Definition normalize : M t unit :=
  (self <- get ;;
   l <- lift (mag self) ;;
   if (l <=? 0)%float then ret tt else __idiv__ l)%py.

(** The value [0] of the first branch is the int zero, which [==],
    the ordering and the [.2f] format treat as the float zero. *)
Definition getAngleRad (self : t) : result float :=
  (l <~ mag self ;;
   if (l <=? 0)%float then Ok 0%float
   else if (0 <=? y self)%float then
     q <~ PyNum.truediv (x self) l ;; math_acos q
   else
     q <~ PyNum.truediv (x self) l ;;
     a <~ math_acos q ;;
     Ok (2 * PyNum.pi - a)%float)%py.

End WithBuiltins.

End Position.

(* ================================================================= *)
(** ** class Material, class Node, class Link, class TrussModel *)

Module Material.

Record t : Set := mk {
  uts : option float;
  ys : option float;
  E : option float;
  staticFactor : option float
}.

Definition __init__ (uts ys modulus staticFactor : option float) : t :=
  mk uts ys modulus staticFactor.

Definition set_uts (v : option float) (self : t) : t :=
  mk v (ys self) (E self) (staticFactor self).
Definition set_ys (v : option float) (self : t) : t :=
  mk (uts self) v (E self) (staticFactor self).
Definition set_E (v : option float) (self : t) : t :=
  mk (uts self) (ys self) v (staticFactor self).
Definition set_staticFactor (v : option float) (self : t) : t :=
  mk (uts self) (ys self) (E self) v.

End Material.

Module Node.

Record t : Set := mk { name : option string; position : Position.t }.

Definition __init__ (name : option string) (position : option Position.t) : t :=
  mk name (match position with
           | Some p => p
           | None => Position.__init__ None None None None
           end).

Definition set_name (v : option string) (self : t) : t := mk v (position self).
Definition set_position (p : Position.t) (self : t) : t := mk (name self) p.

(** [n.name == name] for a string [name] *)
Definition named (nm : string) (self : t) : bool :=
  match name self with
  | Some s => String.eqb s nm
  | None => false
  end.

End Node.

Module Link.

Record t : Set := mk {
  name : string;
  node1_Name : string;
  node2_Name : string;
  length : option float;
  angleRad : option float
}.

(** The body assigns the literals and the two node arguments only. *)
Definition __init__ (name node1 node2 : string)
    (length angleRad : option float) : t :=
  mk EmptyString node1 node2 None None.

(** [Link()] *)
Definition default : t := __init__ EmptyString "1" "2" None None.

Definition __eq__ (self other : t) : bool :=
  if negb (String.eqb (node1_Name self) (node1_Name other)) then false
  else if negb (String.eqb (node2_Name self) (node2_Name other)) then false
  else if PyNum.ne_opt (length self) (length other) then false
  else if PyNum.ne_opt (angleRad self) (angleRad other) then false
  else true.

Definition set_name (v : string) (self : t) : t :=
  mk v (node1_Name self) (node2_Name self) (length self) (angleRad self).
Definition set_node1_Name (v : string) (self : t) : t :=
  mk (name self) v (node2_Name self) (length self) (angleRad self).
Definition set_node2_Name (v : string) (self : t) : t :=
  mk (name self) (node1_Name self) v (length self) (angleRad self).
Definition set_length (v : option float) (self : t) : t :=
  mk (name self) (node1_Name self) (node2_Name self) v (angleRad self).
Definition set_angleRad (v : option float) (self : t) : t :=
  mk (name self) (node1_Name self) (node2_Name self) (length self) v.

End Link.

Module TrussModel.

Record t : Set := mk {
  title : option string;
  links : list Link.t;
  nodes : list Node.t;
  material : Material.t
}.

Definition __init__ : t :=
  mk None [] [] (Material.__init__ None None None None).

Definition set_title (v : option string) (self : t) : t :=
  mk v (links self) (nodes self) (material self).
Definition set_links (v : list Link.t) (self : t) : t :=
  mk (title self) v (nodes self) (material self).
Definition set_nodes (v : list Node.t) (self : t) : t :=
  mk (title self) (links self) v (material self).
Definition set_material (v : Material.t) (self : t) : t :=
  mk (title self) (links self) (nodes self) v.

(** The first node of that name, or [None]. *)
Definition getNode (nm : string) (self : t) : option Node.t :=
  List.find (Node.named nm) (nodes self).

End TrussModel.

(* ================================================================= *)
(** ** class TrussView *)

(** The Qt graphics scene and [TrussView.buildScene], which draws a model
    into it: the rendering sink.  It reads the model and never writes it. *)
Class SceneSink : Type := {
  Scene : Type;
  draw_scene : TrussModel.t -> Scene -> result unit * Scene
}.

Module TrussView.

Section WithSink.
Context `{B : Builtins} `{K : SceneSink}.

(** The text each widget shows, and the scene. *)
Record t : Type := mk {
  scene : Scene;
  le_LongLinkName : string;
  le_LongLinkNode1 : string;
  le_LongLinkNode2 : string;
  le_LongLinkLength : string;
  te_Report : string
}.

Definition set_scene (v : Scene) (self : t) : t :=
  mk v (le_LongLinkName self) (le_LongLinkNode1 self)
     (le_LongLinkNode2 self) (le_LongLinkLength self) (te_Report self).
Definition set_le_LongLinkName (v : string) (self : t) : t :=
  mk (scene self) v (le_LongLinkNode1 self)
     (le_LongLinkNode2 self) (le_LongLinkLength self) (te_Report self).
Definition set_le_LongLinkNode1 (v : string) (self : t) : t :=
  mk (scene self) (le_LongLinkName self) v
     (le_LongLinkNode2 self) (le_LongLinkLength self) (te_Report self).
Definition set_le_LongLinkNode2 (v : string) (self : t) : t :=
  mk (scene self) (le_LongLinkName self) (le_LongLinkNode1 self)
     v (le_LongLinkLength self) (te_Report self).
Definition set_le_LongLinkLength (v : string) (self : t) : t :=
  mk (scene self) (le_LongLinkName self) (le_LongLinkNode1 self)
     (le_LongLinkNode2 self) v (te_Report self).
Definition set_te_Report (v : string) (self : t) : t :=
  mk (scene self) (le_LongLinkName self) (le_LongLinkNode1 self)
     (le_LongLinkNode2 self) (le_LongLinkLength self) v.

(** The lines of the report that come before the link rows. *)
Definition report_header (truss : TrussModel.t) : result string :=
  let m := TrussModel.material truss in
  (let st := (PyStr.TAB ++ "Truss Design Report" ++ PyStr.NL)%string in
   let st := (st ++ "Title:  " ++ PyStr.str_of (TrussModel.title truss)
                 ++ PyStr.NL)%string in
   sf <~ PyNum.fmt_2f (Material.staticFactor m) ;;
   let st := (st ++ "Static Factor of Safety:  " ++ sf ++ PyStr.NL)%string in
   su <~ PyNum.fmt_2f (Material.uts m) ;;
   let st := (st ++ "Ultimate Strength:  " ++ su ++ PyStr.NL)%string in
   sy <~ PyNum.fmt_2f (Material.ys m) ;;
   let st := (st ++ "Yield Strength:  " ++ sy ++ PyStr.NL)%string in
   se <~ PyNum.fmt_2f (Material.E m) ;;
   let st := (st ++ "Modulus of Elasticity:  " ++ se ++ PyStr.NL)%string in
   let st := (st ++ "_____________Link Summary________________"
                 ++ PyStr.NL)%string in
   Ok (st ++ "Link" ++ PyStr.TAB ++ "(1)" ++ PyStr.TAB ++ "(2)" ++ PyStr.TAB
          ++ "Length" ++ PyStr.TAB ++ "Angle" ++ PyStr.NL)%string)%py.

(** One turn of [for l in truss.links] on the locals [longest], [st]. *)
Definition report_row (l : Link.t) (acc : option Link.t * string)
  : result (option Link.t * string) :=
  let (longest, st) := acc in
  (longest' <~ match longest with
               | None => Ok (Some l)
               | Some lg =>
                   b <~ PyNum.gt_opt (Link.length l) (Link.length lg) ;;
                   Ok (if b then Some l else Some lg)
               end ;;
   sl <~ PyNum.fmt_2f (Link.length l) ;;
   sa <~ PyNum.fmt_2f (Link.angleRad l) ;;
   Ok (longest',
       (st ++ Link.name l ++ PyStr.TAB ++ Link.node1_Name l ++ PyStr.TAB
           ++ Link.node2_Name l ++ PyStr.TAB ++ sl ++ PyStr.TAB ++ sa
           ++ PyStr.NL)%string))%py.

Fixpoint report_links (ls : list Link.t) (acc : option Link.t * string)
  : result (option Link.t * string) :=
  match ls with
  | [] => Ok acc
  | l :: rest => (acc' <~ report_row l acc ;; report_links rest acc')%py
  end.

(** [longest.attr]: [None] has no attributes. *)
Definition attr_of {A} (longest : option Link.t) (attr : Link.t -> A)
  : result A :=
  match longest with
  | Some l => Ok (attr l)
  | None => Raise AttributeError
  end.

Definition displayReport (truss : TrussModel.t) : M t unit :=
  (st0 <- lift (report_header truss) ;;
   acc <- lift (report_links (TrussModel.links truss) (None, st0)) ;;
   let (longest, st) := acc in
   modify (set_te_Report st) ;;;
   nm <- lift (attr_of longest Link.name) ;;
   modify (set_le_LongLinkName nm) ;;;
   len <- lift (attr_of longest Link.length) ;;
   slen <- lift (PyNum.fmt_2f len) ;;
   modify (set_le_LongLinkLength slen) ;;;
   n1 <- lift (attr_of longest Link.node1_Name) ;;
   modify (set_le_LongLinkNode1 n1) ;;;
   n2 <- lift (attr_of longest Link.node2_Name) ;;
   modify (set_le_LongLinkNode2 n2))%py.

Definition buildScene (truss : TrussModel.t) : M t unit :=
  fun self =>
    let (r, sc) := draw_scene truss (scene self) in (r, set_scene sc self).

End WithSink.

End TrussView.

(* ================================================================= *)
(** ** class TrussController *)

Module TrussController.

Section WithRuntime.
Context `{B : Builtins} `{K : SceneSink}.

Record t : Type := mk { truss : TrussModel.t; view : TrussView.t }.

Definition set_truss (v : TrussModel.t) (self : t) : t := mk v (view self).
Definition set_view (v : TrussView.t) (self : t) : t := mk (truss self) v.

(** An assignment to, or an in-place change of, [self.truss]. *)
Definition on_truss (f : TrussModel.t -> TrussModel.t) : M t unit :=
  modify (fun self => set_truss (f (truss self)) self).

Definition on_material (f : Material.t -> Material.t) : M t unit :=
  on_truss (fun tm => TrussModel.set_material (f (TrussModel.material tm)) tm).

Definition hasNode (name : string) (self : t) : bool :=
  existsb (Node.named name) (TrussModel.nodes (truss self)).

Definition addNode (node : Node.t) : M t unit :=
  on_truss (fun tm => TrussModel.set_nodes (TrussModel.nodes tm ++ [node]) tm).

Definition getNode (name : string) (self : t) : option Node.t :=
  List.find (Node.named name) (TrussModel.nodes (truss self)).

Definition addLink (link : Link.t) : M t unit :=
  on_truss (fun tm => TrussModel.set_links (TrussModel.links tm ++ [link]) tm).

(** [float(parts[i].strip(','))] *)
Definition float_field (parts : list string) (i : nat) : result float :=
  (p <~ PyStr.index parts i ;; float_of_string (PyStr.strip_char "," p))%py.

(** [parts[i].strip(',')] *)
Definition name_field (parts : list string) (i : nat) : result string :=
  (p <~ PyStr.index parts i ;; Ok (PyStr.strip_char "," p))%py.

(** The unused parameter [TM] is not modelled: it is [None] at the one
    call, so the target is [self.truss]. *)
Definition importTitle (data : list string) (j : nat) : M t unit :=
  (line <- lift (PyStr.index data j) ;;
   let parts := PyStr.split (PyStr.strip line) in
   match PyStr.slice parts 1 4 with
   | [A; B; C] =>
       let title := PyStr.strip_char "'" (PyStr.join " " [A; B; C]) in
       on_truss (TrussModel.set_title (Some title))
   | _ => lift (Raise ValueError)
   end)%py.

Definition importMaterial (data : list string) (j : nat) : M t unit :=
  (line <- lift (PyStr.index data j) ;;
   let parts := PyStr.split (PyStr.strip line) in
   v1 <- lift (float_field parts 1) ;;
   on_material (Material.set_uts (Some v1)) ;;;
   v2 <- lift (float_field parts 2) ;;
   on_material (Material.set_ys (Some v2)) ;;;
   v3 <- lift (float_field parts 3) ;;
   on_material (Material.set_E (Some v3)))%py.

Definition importSF (data : list string) (j : nat) : M t unit :=
  (line <- lift (PyStr.index data j) ;;
   let parts := PyStr.split (PyStr.strip line) in
   v <- lift (float_field parts 1) ;;
   on_material (Material.set_staticFactor (Some v)))%py.

Definition importLink (data : list string) (j : nat) : M t unit :=
  (let L := Link.default in
   line <- lift (PyStr.index data j) ;;
   let parts := PyStr.split (PyStr.strip line) in
   name <- lift (name_field parts 1) ;;
   node1 <- lift (name_field parts 2) ;;
   node2 <- lift (name_field parts 3) ;;
   self <- get ;;
   let run := negb (existsb (fun l => String.eqb (Link.name l) name)
                            (TrussModel.links (truss self))) in
   if hasNode node1 self && hasNode node2 self && run then
     let L := Link.set_name name L in
     let L := Link.set_node1_Name node1 L in
     let L := Link.set_node2_Name node2 L in
     addLink L
   else ret tt)%py.

(** The [else] branch prints a message and changes nothing. *)
Definition importNode (data : list string) (j : nat) : M t unit :=
  (line <- lift (PyStr.index data j) ;;
   let parts := map PyStr.strip (PyStr.split_on "," (PyStr.strip line)) in
   if 4 <=? List.length parts then
     name <- lift (PyStr.index parts 1) ;;
     self <- get ;;
     if negb (hasNode name self) then
       let N := Node.__init__ None None in
       let N := Node.set_name (Some name) N in
       vx <- lift (p <~ PyStr.index parts 2 ;; float_of_string p) ;;
       let N := Node.set_position (Position.set_x vx (Node.position N)) N in
       vy <- lift (p <~ PyStr.index parts 3 ;; float_of_string p) ;;
       let N := Node.set_position (Position.set_y vy (Node.position N)) N in
       addNode N
     else ret tt
   else ret tt)%py.

(** The body of [for l in self.truss.links], as a method of the link. *)
Definition calcLink (self : t) : M Link.t unit :=
  (l <- get ;;
   let n1 := if hasNode (Link.node1_Name l) self
             then getNode (Link.node1_Name l) self else None in
   let n2 := if hasNode (Link.node2_Name l) self
             then getNode (Link.node2_Name l) self else None in
   match n1, n2 with
   | Some a, Some b =>
       let r := Position.__sub__ (Node.position b) (Node.position a) in
       len <- lift (Position.mag r) ;;
       modify (Link.set_length (Some len)) ;;;
       ang <- lift (Position.getAngleRad r) ;;
       modify (Link.set_angleRad (Some ang))
   | _, _ => ret tt
   end)%py.

(** A loop that updates the elements of a list in place. *)
Fixpoint for_inplace {A} (body : M A unit) (xs : list A)
  : result unit * list A :=
  match xs with
  | [] => (Ok tt, [])
  | a :: rest =>
      match body a with
      | (Ok _, a') =>
          let (r, rest') := for_inplace body rest in (r, a' :: rest')
      | (Raise e, a') => (Raise e, a' :: rest)
      end
  end.

Definition calcLinkVals : M t unit :=
  fun self =>
    let (r, ls) := for_inplace (calcLink self) (TrussModel.links (truss self)) in
    (r, set_truss (TrussModel.set_links ls (truss self)) self).

Definition displayReport : M t unit :=
  fun self =>
    let (r, v) := TrussView.displayReport (truss self) (view self) in
    (r, set_view v self).

Definition drawTruss : M t unit :=
  fun self =>
    let (r, v) := TrussView.buildScene (truss self) (view self) in
    (r, set_view v self).

(** The body of the [while] loop, for one value of [Index]. *)
Definition scanLine (data : list string) (Index : nat) : M t unit :=
  (line <- lift (PyStr.index data Index) ;;
   let lin := PyStr.strip (PyStr.lower line) in
   if (PyStr.find "#" lin =? 0)%Z then ret tt
   else if (0 <=? PyStr.find "title" lin)%Z then importTitle data Index
   else if (0 <=? PyStr.find "link" lin)%Z then importLink data Index
   else if (0 <=? PyStr.find "node" lin)%Z then importNode data Index
   else if (0 <=? PyStr.find "material" lin)%Z then importMaterial data Index
   else if (0 <=? PyStr.find "static_factor" lin)%Z then importSF data Index
   else ret tt)%py.

(** The reset that opens [ImportFromFile]; the static factor is reset
    to the int zero. *)
Definition resetModel : M t unit :=
  (on_truss (TrussModel.set_links []) ;;;
   on_truss (TrussModel.set_nodes []) ;;;
   on_truss (TrussModel.set_title None) ;;;
   on_material (Material.set_uts None) ;;;
   on_material (Material.set_ys None) ;;;
   on_material (Material.set_E None) ;;;
   on_material (Material.set_staticFactor (Some 0%float)))%py.

(** The [while] loop: [Index] runs from 0 up to [len(data) - 1]. *)
Definition scan (data : list string) : M t unit :=
  for_each (seq 0 (List.length data)) (scanLine data).

Definition ImportFromFile (data : list string) : M t unit :=
  (resetModel ;;;
   scan data ;;;
   calcLinkVals ;;;
   displayReport ;;;
   drawTruss)%py.

End WithRuntime.

End TrussController.

(* ================================================================= *)
(** ** Vocabulary of the statements *)

Module Spec.

Inductive kind : Set :=
| KComment | KTitle | KLink | KNode | KMaterial | KStaticFactor | KOther.

(** The kind the dispatcher of [ImportFromFile] gives a line. *)
Definition line_kind (line : string) : kind :=
  let lin := PyStr.strip (PyStr.lower line) in
  if (PyStr.find "#" lin =? 0)%Z then KComment
  else if (0 <=? PyStr.find "title" lin)%Z then KTitle
  else if (0 <=? PyStr.find "link" lin)%Z then KLink
  else if (0 <=? PyStr.find "node" lin)%Z then KNode
  else if (0 <=? PyStr.find "material" lin)%Z then KMaterial
  else if (0 <=? PyStr.find "static_factor" lin)%Z then KStaticFactor
  else KOther.

(** The comma-separated fields of a node line. *)
Definition node_fields (line : string) : list string :=
  map PyStr.strip (PyStr.split_on "," (PyStr.strip line)).

(** The whitespace-separated fields of a link line, commas stripped. *)
Definition link_fields (line : string) : list string :=
  map (PyStr.strip_char ",") (PyStr.split (PyStr.strip line)).

(** [line] is a node line with at least four fields that names [name]. *)
Definition declares_node (line name : string) : Prop :=
  line_kind line = KNode /\
  exists kw sx sy rest, node_fields line = kw :: name :: sx :: sy :: rest.

(** [line] is a link line for a link [name] from [node1] to [node2]. *)
Definition declares_link (line name node1 node2 : string) : Prop :=
  line_kind line = KLink /\
  exists kw rest, link_fields line = kw :: name :: node1 :: node2 :: rest.

(** Python's [a == b] on values that are floats or [None]. *)
Definition same_value (a b : option float) : Prop :=
  match a, b with
  | Some u, Some v => (u =? v)%float = true
  | None, None => True
  | _, _ => False
  end.

(** [l.length > r.length] holds. *)
Definition longer (l r : Link.t) : Prop :=
  PyNum.gt_opt (Link.length l) (Link.length r) = Ok true.

(** [l.length >= r.length] holds. *)
Definition at_least_as_long (l r : Link.t) : Prop :=
  match Link.length l, Link.length r with
  | Some u, Some v => (v <=? u)%float = true
  | _, _ => False
  end.

(** [l.length < r.length] holds. *)
Definition shorter (l r : Link.t) : Prop :=
  match Link.length l, Link.length r with
  | Some u, Some v => (u <? v)%float = true
  | _, _ => False
  end.

(** [l.length <= r.length] holds. *)
Definition no_longer (l r : Link.t) : Prop :=
  match Link.length l, Link.length r with
  | Some u, Some v => (u <=? v)%float = true
  | _, _ => False
  end.

(** The length is set and is not a NaN. *)
Definition measured (l : Link.t) : Prop :=
  exists u, Link.length l = Some u /\ (u =? u)%float = true.

(** Length and angle are set. *)
Definition derived (l : Link.t) : Prop :=
  (exists u, Link.length l = Some u) /\ (exists a, Link.angleRad l = Some a).

(** The four material values are set. *)
Definition material_set (m : Material.t) : Prop :=
  exists u y e f, m = Material.mk (Some u) (Some y) (Some e) (Some f).

(** Two links with the same name and the same end nodes. *)
Definition same_ends (l l' : Link.t) : Prop :=
  Link.name l' = Link.name l /\
  Link.node1_Name l' = Link.node1_Name l /\
  Link.node2_Name l' = Link.node2_Name l.

(** The model every import starts from. *)
Definition cleared : TrussModel.t :=
  TrussModel.mk None [] [] (Material.mk None None None (Some 0%float)).

Section Scan.
Context `{B : Builtins} `{K : SceneSink}.

Definition nodes_of (self : TrussController.t) : list Node.t :=
  TrussModel.nodes (TrussController.truss self).

Definition links_of (self : TrussController.t) : list Link.t :=
  TrussModel.links (TrussController.truss self).

(** What the loop does with one line: its body run on that line alone. *)
Definition step (line : string) : M TrussController.t unit :=
  TrussController.scanLine [line] 0.

(** [self] after [self.truss.nodes.append(N)]. *)
Definition add_node (N : Node.t) (self : TrussController.t)
  : TrussController.t :=
  TrussController.set_truss
    (TrussModel.set_nodes (nodes_of self ++ [N])
       (TrussController.truss self)) self.

(** [self] after [self.truss.links.append(L)]. *)
Definition add_link (L : Link.t) (self : TrussController.t)
  : TrussController.t :=
  TrussController.set_truss
    (TrussModel.set_links (links_of self ++ [L])
       (TrussController.truss self)) self.

(** What [ImportFromFile] does once the loop is over. *)
Definition finish : M TrussController.t unit :=
  (TrussController.calcLinkVals ;;;
   TrussController.displayReport ;;;
   TrussController.drawTruss)%py.

(** Two runs with the same outcome that leave the same model. *)
Definition agree (p q : result unit * TrussController.t) : Prop :=
  fst p = fst q /\
  TrussController.truss (snd p) = TrussController.truss (snd q).

End Scan.

End Spec.

(* ================================================================= *)
(** ** An instance of the runtime, for running the model

    Exact on the arguments the examples below reach: squares and square
    roots that are representable, a table of [math.acos], decimal
    integers for [float], and the correctly rounded two-decimal format. *)

Module Ref.

Definition pow (a b : float) : result float :=
  if (b =? 2)%float then
    let r := (a * a)%float in
    if is_finite a && is_infinity r then Raise OverflowError else Ok r
  else if (b =? 0.5)%float then Ok (sqrt a)
  else Raise ValueError.

Definition acos (q : float) : result float :=
  if (q =? 1)%float then Ok 0%float
  else if (q =? 0)%float then Ok (PyNum.pi / 2)%float
  else if (q =? -1)%float then Ok PyNum.pi
  else if (q =? 3 / 5)%float then Ok 0x1.dac670561bb4fp-1%float
  else Raise ValueError.

Definition digit_of (c : ascii) : option Z :=
  let n := nat_of_ascii c in
  if (48 <=? n) && (n <=? 57) then Some (Z.of_nat (n - 48)) else None.

Fixpoint digits (s : string) (acc : Z) : option Z :=
  match s with
  | EmptyString => Some acc
  | String c s' =>
      match digit_of c with
      | Some d => digits s' (10 * acc + d)
      | None => None
      end
  end.

Definition of_string (s : string) : result float :=
  match s with
  | EmptyString => Raise ValueError
  | String _ _ =>
      match digits s 0 with
      | Some n =>
          if (n <? 2 ^ 53)%Z then Ok (of_uint63 (Uint63.of_Z n))
          else Raise ValueError
      | None => Raise ValueError
      end
  end.

Definition string_of_Z (n : Z) : string :=
  NilZero.string_of_uint (N.to_uint (Z.to_N n)).

(** [num / den] rounded to the nearest integer, ties to even. *)
Definition round_half_even (num den : Z) : Z :=
  let q := (num / den)%Z in
  let r := (num mod den)%Z in
  if (2 * r <? den)%Z then q
  else if (den <? 2 * r)%Z then (q + 1)%Z
  else if Z.even q then q else (q + 1)%Z.

Definition fmt (f : float) : string :=
  match Prim2SF f with
  | S754_nan => "nan"
  | S754_infinity s => if s then "-inf" else "inf"
  | S754_zero s => if s then "-0.00" else "0.00"
  | S754_finite s m e =>
      let n := if (0 <=? e)%Z then (Zpos m * 100 * 2 ^ e)%Z
               else round_half_even (Zpos m * 100) (2 ^ (- e)) in
      let frac := string_of_Z (n mod 100) in
      ((if s then "-" else EmptyString)
         ++ string_of_Z (n / 100) ++ "."
         ++ (if (n mod 100 <? 10)%Z then "0" else EmptyString) ++ frac)%string
  end.

Definition builtins : Builtins :=
  {| float_pow := pow; math_acos := acos;
     float_of_string := of_string; format_2f := fmt |}.

(** A sink that only reads [truss.nodes[0]], as [buildScene] does first. *)
Definition sink : SceneSink :=
  {| Scene := unit;
     draw_scene := fun truss sc =>
       match TrussModel.nodes truss with
       | [] => (Raise IndexError, sc)
       | _ :: _ => (Ok tt, sc)
       end |}.

Definition view0 : @TrussView.t sink :=
  TrussView.mk (K := sink) tt EmptyString EmptyString EmptyString EmptyString
    EmptyString.

Definition controller0 : @TrussController.t sink :=
  TrussController.mk TrussModel.__init__ view0.

(** A model with three derived links, of lengths 5, 10 and 7. *)
Definition three_links : TrussModel.t :=
  TrussModel.mk (Some "Three links"%string)
    [Link.mk "L1" "A" "B" (Some 5%float) (Some 0%float);
     Link.mk "L2" "B" "C" (Some 10%float) (Some 0%float);
     Link.mk "L3" "C" "D" (Some 7%float) (Some 0%float)]
    []
    (Material.mk (Some 1%float) (Some 2%float) (Some 3%float) (Some 4%float)).

End Ref.

(* ================================================================= *)
(** ** class Position: the other operators and methods *)

Module PositionExt.

(** What an operator of [Position] is handed here: a float, a [Position],
    or one of the classes [float] and [int] themselves.  Int scalars are
    left out. *)
Inductive operand : Set :=
| OFloat (f : float)
| OPosition (p : Position.t)
| OClass.

(** What an in-place operator returns: [self], or [None] when the body
    falls through. *)
Inductive returned : Set := Self | NoneValue.

(** [other in (float, int)]: each item of the tuple is compared with
    [other] by identity and then by [==].  A float equals neither class; for
    a [Position] the comparison runs [Position.__eq__] against the class,
    which reads the attribute [x] the class does not have. *)
Definition in_float_int (other : operand) : result bool :=
  match other with
  | OClass => Ok true
  | OFloat _ => Ok false
  | OPosition _ => Raise AttributeError
  end.

(** [type(other) in (float, int)] *)
Definition type_in_float_int (other : operand) : bool :=
  match other with
  | OFloat _ => true
  | OPosition _ | OClass => false
  end.

(** [a + other], [a - other] and [a * other] for a float [a]: only a number
    on the right is supported. *)
Definition float_add (a : float) (other : operand) : result float :=
  match other with
  | OFloat f => Ok (a + f)%float
  | OPosition _ | OClass => Raise TypeError
  end.

Definition float_sub (a : float) (other : operand) : result float :=
  match other with
  | OFloat f => Ok (a - f)%float
  | OPosition _ | OClass => Raise TypeError
  end.

Definition __add__ (self other : Position.t) : Position.t :=
  Position.__init__
    (Some ((Position.x self + Position.x other)%float,
           (Position.y self + Position.y other)%float,
           (Position.z self + Position.z other)%float)) None None None.

Definition __iadd__ (other : operand) : M Position.t returned :=
  (b <- lift (in_float_int other) ;;
   if b then
     self <- get ;; vx <- lift (float_add (Position.x self) other) ;;
     modify (Position.set_x vx) ;;;
     self <- get ;; vy <- lift (float_add (Position.y self) other) ;;
     modify (Position.set_y vy) ;;;
     self <- get ;; vz <- lift (float_add (Position.z self) other) ;;
     modify (Position.set_z vz) ;;;
     ret Self
   else
     match other with
     | OPosition p =>
         modify (fun self => Position.set_x (Position.x self + Position.x p) self) ;;;
         modify (fun self => Position.set_y (Position.y self + Position.y p) self) ;;;
         modify (fun self => Position.set_z (Position.z self + Position.z p) self) ;;;
         ret Self
     | OFloat _ | OClass => ret NoneValue
     end)%py.

Definition __isub__ (other : operand) : M Position.t returned :=
  (b <- lift (in_float_int other) ;;
   if b then
     self <- get ;; vx <- lift (float_sub (Position.x self) other) ;;
     modify (Position.set_x vx) ;;;
     self <- get ;; vy <- lift (float_sub (Position.y self) other) ;;
     modify (Position.set_y vy) ;;;
     self <- get ;; vz <- lift (float_sub (Position.z self) other) ;;
     modify (Position.set_z vz) ;;;
     ret Self
   else
     match other with
     | OPosition p =>
         modify (fun self => Position.set_x (Position.x self - Position.x p) self) ;;;
         modify (fun self => Position.set_y (Position.y self - Position.y p) self) ;;;
         modify (fun self => Position.set_z (Position.z self - Position.z p) self) ;;;
         ret Self
     | OFloat _ | OClass => ret NoneValue
     end)%py.

(** [self * other]; [None] when [other] is neither a number nor a
    [Position]. *)
Definition __mul__ (self : Position.t) (other : operand)
  : option Position.t :=
  if type_in_float_int other then
    match other with
    | OFloat f =>
        Some (Position.__init__
                (Some ((Position.x self * f)%float, (Position.y self * f)%float,
                       (Position.z self * f)%float)) None None None)
    | OPosition _ | OClass => None
    end
  else
    match other with
    | OPosition p =>
        Some (Position.__init__
                (Some ((Position.x self * Position.x p)%float,
                       (Position.y self * Position.y p)%float,
                       (Position.z self * Position.z p)%float))
                None None None)
    | OFloat _ | OClass => None
    end.

(** [other * self] when [other] does not know how: [self * other]. *)
Definition __rmul__ (self : Position.t) (other : operand)
  : option Position.t :=
  __mul__ self other.

Definition __imul__ (other : operand) : M Position.t returned :=
  (if type_in_float_int other then
     match other with
     | OFloat f =>
         modify (fun self => Position.set_x (Position.x self * f) self) ;;;
         modify (fun self => Position.set_y (Position.y self * f) self) ;;;
         modify (fun self => Position.set_z (Position.z self * f) self) ;;;
         ret Self
     | OPosition _ | OClass => ret NoneValue
     end
   else ret NoneValue)%py.

(** [self / other]; the three quotients are computed before the new
    [Position] is built. *)
Definition __truediv__ (self : Position.t) (other : operand)
  : result (option Position.t) :=
  if type_in_float_int other then
    match other with
    | OFloat f =>
        (qx <~ PyNum.truediv (Position.x self) f ;;
         qy <~ PyNum.truediv (Position.y self) f ;;
         qz <~ PyNum.truediv (Position.z self) f ;;
         Ok (Some (Position.__init__ (Some (qx, qy, qz)) None None None)))%py
    | OPosition _ | OClass => Ok None
    end
  else Ok None.

(** [s.replace(c, '')] for a one-character [c] *)
Fixpoint remove_char (c : ascii) (s : string) : string :=
  match s with
  | EmptyString => EmptyString
  | String d s' =>
      if Ascii.eqb d c then remove_char c s' else String d (remove_char c s')
  end.

Definition getTup (self : Position.t) : float * float * float :=
  (Position.x self, Position.y self, Position.z self).

Section WithBuiltins.
Context `{B : Builtins}.

(** [set(strXYZ, tupXYZ)]; the tuple holds floats, which [float] returns
    as they are. *)
Definition set (strXYZ : option string)
    (tupXYZ : option (float * float * float)) : M Position.t unit :=
  match strXYZ with
  | Some str =>
      (let cells := PyStr.split_on ","
                      (PyStr.strip (remove_char ")" (remove_char "(" str))) in
       vx <- lift (c <~ PyStr.index cells 0 ;; float_of_string c) ;;
       vy <- lift (c <~ PyStr.index cells 1 ;; float_of_string c) ;;
       vz <- lift (c <~ PyStr.index cells 2 ;; float_of_string c) ;;
       modify (Position.set_x vx) ;;;
       modify (Position.set_y vy) ;;;
       modify (Position.set_z vz))%py
  | None =>
      match tupXYZ with
      | Some (vx, vy, vz) =>
          (modify (Position.set_x vx) ;;;
           modify (Position.set_y vy) ;;;
           modify (Position.set_z vz))%py
      | None => ret tt
      end
  end.

End WithBuiltins.

End PositionExt.

(* ================================================================= *)
(** ** class Node: equality *)

Module NodeExt.

(** [a != b] on names, which are strings or [None] *)
Definition name_ne (a b : option string) : bool :=
  match a, b with
  | Some s, Some t => negb (String.eqb s t)
  | None, None => false
  | _, _ => true
  end.

(** [Position] defines no [__ne__]: [!=] is the negation of [__eq__]. *)
Definition __eq__ (self other : Node.t) : bool :=
  if name_ne (Node.name self) (Node.name other) then false
  else if negb (Position.__eq__ (Node.position self) (Node.position other))
       then false
  else true.

End NodeExt.

(* ================================================================= *)
(** ** Example data at the reference runtime *)

Module Examples.

Definition full_file : list string :=
  ["title 'My Truss One'"; "material 1, 2, 3"; "static_factor 4";
   "node, A, 0, 0"; "node, B, 3, 4"; "link L1, A, B"]%string.

(** The controller the reset leaves. *)
Definition fresh : @TrussController.t Ref.sink :=
  snd (@TrussController.resetModel Ref.sink Ref.controller0).

(** The controller after the scan of [full_file]. *)
Definition scanned : @TrussController.t Ref.sink :=
  snd (@TrussController.scan Ref.builtins Ref.sink full_file fresh).

(** The controller after the geometry step. *)
Definition derived : @TrussController.t Ref.sink :=
  snd (@TrussController.calcLinkVals Ref.builtins Ref.sink scanned).

End Examples.

(* ================================================================= *)
(** ** Invariants of the model *)

Module Inv.

Section WithRuntime.
Context `{B : Builtins} `{K : SceneSink}.

(** Every link of the model runs between two nodes the model has. *)
Definition resolved (s : TrussController.t) : Prop :=
  forall L, In L (Spec.links_of s) ->
    TrussController.hasNode (Link.node1_Name L) s = true /\
    TrussController.hasNode (Link.node2_Name L) s = true.

(** [self.truss.material.uts] *)
Definition uts_of (s : TrussController.t) : option float :=
  Material.uts (TrussModel.material (TrussController.truss s)).

End WithRuntime.

End Inv.

(* ================================================================= *)
(** ** The order of binary64 values *)

Module FloatOrder.

Ltac cmp_cases :=
  repeat match goal with
  | |- context [Z.compare ?a ?b] => destruct (Z.compare_spec a b)
  | H : context [Z.compare ?a ?b] |- _ => destruct (Z.compare_spec a b)
  | |- context [Pos.compare_cont Eq ?a ?b] =>
      change (Pos.compare_cont Eq a b) with (Pos.compare a b) in *;
      destruct (Pos.compare_spec a b)
  | H : context [Pos.compare_cont Eq ?a ?b] |- _ =>
      change (Pos.compare_cont Eq a b) with (Pos.compare a b) in *;
      destruct (Pos.compare_spec a b)
  end.

Ltac by_cases a b c :=
  destruct a as [[|]|[|]| |[|] ? ?], b as [[|]|[|]| |[|] ? ?],
           c as [[|]|[|]| |[|] ? ?];
  simpl; try discriminate; try reflexivity;
  intros; cmp_cases; simpl in *; subst;
  try discriminate; try reflexivity; try lia.

Lemma SFcompare_antisym a b c :
  SFcompare a b = Some c -> SFcompare b a = Some (CompOpp c).
Proof.
  destruct a as [[|]|[|]| |[|] ? ?], b as [[|]|[|]| |[|] ? ?]; simpl;
    try discriminate;
    intros H; injection H as <-; try reflexivity;
    cmp_cases; simpl; subst; try reflexivity; try lia.
Qed.

Lemma SFcompare_swap a b :
  SFcompare a b = Some Lt -> SFcompare b a = Some Gt.
Proof. exact (SFcompare_antisym a b Lt). Qed.

Lemma SFcompare_total a b :
  SFcompare a a = Some Eq -> SFcompare b b = Some Eq ->
  exists c, SFcompare a b = Some c.
Proof.
  destruct a as [[|]|[|]| |[|] ? ?], b as [[|]|[|]| |[|] ? ?]; simpl;
    try discriminate; eauto.
Qed.

Lemma SFcompare_lt_lt a b c :
  SFcompare a b = Some Lt -> SFcompare b c = Some Lt ->
  SFcompare a c = Some Lt.
Proof. by_cases a b c. Qed.

Lemma SFcompare_lt_eq a b c :
  SFcompare a b = Some Lt -> SFcompare b c = Some Eq ->
  SFcompare a c = Some Lt.
Proof. by_cases a b c. Qed.

Lemma ltb_Lt a b :
  (a <? b)%float = true <-> SFcompare (Prim2SF a) (Prim2SF b) = Some Lt.
Proof.
  rewrite ltb_spec. unfold SFltb.
  destruct (SFcompare (Prim2SF a) (Prim2SF b)) as [[| |]|];
    split; congruence.
Qed.

Lemma leb_Lt_Eq a b :
  (a <=? b)%float = true <->
  SFcompare (Prim2SF a) (Prim2SF b) = Some Lt \/
  SFcompare (Prim2SF a) (Prim2SF b) = Some Eq.
Proof.
  rewrite leb_spec. unfold SFleb.
  destruct (SFcompare (Prim2SF a) (Prim2SF b)) as [[| |]|];
    split; intros; intuition congruence.
Qed.

Lemma eqb_Eq a b :
  (a =? b)%float = true <-> SFcompare (Prim2SF a) (Prim2SF b) = Some Eq.
Proof.
  rewrite eqb_spec. unfold SFeqb.
  destruct (SFcompare (Prim2SF a) (Prim2SF b)) as [[| |]|];
    split; congruence.
Qed.

Lemma ltb_leb a b : (a <? b)%float = true -> (a <=? b)%float = true.
Proof. rewrite ltb_Lt, leb_Lt_Eq. auto. Qed.

Lemma eqb_leb a b : (a =? b)%float = true -> (a <=? b)%float = true.
Proof. rewrite eqb_Eq, leb_Lt_Eq. auto. Qed.

Lemma ltb_not_leb a b : (a <? b)%float = true -> (b <=? a)%float = false.
Proof.
  rewrite ltb_Lt. intros H. apply SFcompare_swap in H.
  apply not_true_is_false. rewrite leb_Lt_Eq. intuition congruence.
Qed.

Lemma ltb_leb_trans a b c :
  (a <? b)%float = true -> (b <=? c)%float = true -> (a <? c)%float = true.
Proof.
  rewrite !ltb_Lt, leb_Lt_Eq. intros H [H'|H'].
  - eapply SFcompare_lt_lt; eassumption.
  - eapply SFcompare_lt_eq; eassumption.
Qed.

Lemma ltb_irrefl a : (a <? a)%float = false.
Proof.
  apply not_true_is_false. intros H.
  pose proof (ltb_not_leb _ _ H) as H'. apply ltb_leb in H. congruence.
Qed.

(** On floats that are not NaN the order is total. *)
Lemma not_leb_ltb a b :
  (a =? a)%float = true -> (b =? b)%float = true ->
  (b <=? a)%float = false -> (a <? b)%float = true.
Proof.
  rewrite !eqb_Eq, ltb_Lt. intros Ha Hb Hn.
  destruct (SFcompare_total _ _ Ha Hb) as [c Hc].
  destruct c; [| exact Hc |];
    apply SFcompare_antisym in Hc; simpl in Hc;
    assert (Hle : (b <=? a)%float = true) by (apply leb_Lt_Eq; auto);
    congruence.
Qed.

Lemma not_ltb_leb a b :
  (a =? a)%float = true -> (b =? b)%float = true ->
  (a <? b)%float = false -> (b <=? a)%float = true.
Proof.
  rewrite !eqb_Eq, leb_Lt_Eq. intros Ha Hb Hn.
  destruct (SFcompare_total _ _ Ha Hb) as [c Hc].
  destruct c.
  - apply SFcompare_antisym in Hc. auto.
  - apply ltb_Lt in Hc. congruence.
  - apply SFcompare_antisym in Hc. auto.
Qed.

(** A float that is not [<= 0.0] is not a zero divisor. *)
Lemma not_leb0_nonzero l : (l <=? 0)%float = false -> (l =? 0)%float = false.
Proof.
  intros H. apply not_true_is_false. intros E.
  apply eqb_leb in E. congruence.
Qed.

End FloatOrder.

(* ================================================================= *)
(** ** Link: construction and equality *)

(** C10: [Link(name, node1, node2, length, angleRad)] keeps only the two
    node arguments: whatever is passed, the new link has the empty string as
    its name and neither length nor angle. *)
Theorem Link_init_keeps_only_the_nodes
    (name node1 node2 : string) (length angleRad : option float) :
  let l := Link.__init__ name node1 node2 length angleRad in
  Link.name l = EmptyString /\
  Link.length l = None /\
  Link.angleRad l = None /\
  Link.node1_Name l = node1 /\
  Link.node2_Name l = node2.
Proof. cbv zeta. unfold Link.__init__. simpl. repeat split. Qed.

Lemma ne_opt_same_value (a b : option float) :
  PyNum.ne_opt a b = false <-> Spec.same_value a b.
Proof.
  destruct a as [u|], b as [v|]; simpl; unfold PyNum.ne;
    try (split; [discriminate | contradiction]); try tauto.
  destruct (u =? v)%float; simpl; split; congruence.
Qed.

(** C8: two links are equal exactly when their first node names, their
    second node names, their lengths and their angles are equal; the names
    of the links play no part. *)
Theorem Link_eq_compares_nodes_length_angle (a b : Link.t) :
  (Link.__eq__ a b = true <->
   Link.node1_Name a = Link.node1_Name b /\
   Link.node2_Name a = Link.node2_Name b /\
   Spec.same_value (Link.length a) (Link.length b) /\
   Spec.same_value (Link.angleRad a) (Link.angleRad b)) /\
  (forall n m : string,
     Link.__eq__ (Link.set_name n a) (Link.set_name m b) = Link.__eq__ a b).
Proof.
  split; [|reflexivity].
  unfold Link.__eq__.
  rewrite <- !ne_opt_same_value, <- !String.eqb_eq.
  destruct (String.eqb (Link.node1_Name a) (Link.node1_Name b));
    destruct (String.eqb (Link.node2_Name a) (Link.node2_Name b));
    destruct (PyNum.ne_opt (Link.length a) (Link.length b));
    destruct (PyNum.ne_opt (Link.angleRad a) (Link.angleRad b));
    simpl; intuition congruence.
Qed.

(* ================================================================= *)
(** ** Position: normalisation and the angle in the plane *)

Section PositionFacts.
Context `{B : Builtins}.

Lemma idiv_nonzero (v : Position.t) (l : float) :
  (l =? 0)%float = false ->
  Position.__idiv__ l v =
  (Ok tt, Position.mk (Position.x v / l) (Position.y v / l)
                      (Position.z v / l)).
Proof.
  intros Hl. destruct v as [vx vy vz].
  unfold Position.__idiv__, bind, get, lift, modify, PyNum.truediv.
  simpl. rewrite Hl. reflexivity.
Qed.

Lemma normalize_unfold (v : Position.t) (l : float) :
  Position.mag v = Ok l ->
  Position.normalize v =
  if (l <=? 0)%float then (Ok tt, v) else Position.__idiv__ l v.
Proof.
  intros Hm. unfold Position.normalize, bind, get, lift. rewrite Hm.
  destruct (l <=? 0)%float; reflexivity.
Qed.

(** C9: once the magnitude [l] is computed, [normalize] leaves the vector
    as it is when [l <= 0], divides every component by [l] otherwise (in
    particular when [l] is positive), and in no case raises: the division
    is never by zero. *)
Theorem normalize_never_divides_by_zero (v : Position.t) (l : float) :
  Position.mag v = Ok l ->
  ((l <=? 0)%float = true -> Position.normalize v = (Ok tt, v)) /\
  ((l <=? 0)%float = false ->
     Position.normalize v =
     (Ok tt, Position.mk (Position.x v / l) (Position.y v / l)
                         (Position.z v / l))) /\
  ((0 <? l)%float = true ->
     Position.normalize v =
     (Ok tt, Position.mk (Position.x v / l) (Position.y v / l)
                         (Position.z v / l))) /\
  fst (Position.normalize v) = Ok tt.
Proof.
  intros Hm. rewrite (normalize_unfold _ _ Hm).
  assert (Hdiv : (l <=? 0)%float = false ->
            Position.__idiv__ l v =
            (Ok tt, Position.mk (Position.x v / l) (Position.y v / l)
                                (Position.z v / l))).
  { intros Hl. apply idiv_nonzero, FloatOrder.not_leb0_nonzero, Hl. }
  repeat split.
  - intros ->. reflexivity.
  - intros Hl. rewrite Hl. auto.
  - intros Hpos. apply FloatOrder.ltb_not_leb in Hpos.
    rewrite Hpos. auto.
  - destruct (l <=? 0)%float eqn:Hl; [reflexivity|].
    rewrite Hdiv; reflexivity.
Qed.

Lemma getAngleRad_unfold (v : Position.t) (l : float) :
  Position.mag v = Ok l ->
  Position.getAngleRad v =
  if (l <=? 0)%float then Ok 0%float
  else if (0 <=? Position.y v)%float then
    rbind (PyNum.truediv (Position.x v) l) math_acos
  else
    rbind (PyNum.truediv (Position.x v) l)
      (fun q => rbind (math_acos q)
                  (fun a => Ok (2 * PyNum.pi - a)%float)).
Proof.
  intros Hm. unfold Position.getAngleRad. rewrite Hm. reflexivity.
Qed.

Lemma mag_axis (vx vy vz : float) (sx sy sz : float) (l : float) :
  float_pow vx 2 = Ok sx -> float_pow vy 2 = Ok sy ->
  float_pow vz 2 = Ok sz ->
  float_pow (sx + sy + sz)%float 0.5 = Ok l ->
  Position.mag (Position.mk vx vy vz) = Ok l.
Proof.
  intros Hx Hy Hz Hl. unfold Position.mag. simpl.
  rewrite Hx, Hy, Hz. simpl. exact Hl.
Qed.

(** C2: with [l] the magnitude of [v], the angle is 0 when [l <= 0];
    otherwise it is [acos(x / l)] when [y >= 0] and [2 pi - acos(x / l)]
    when [y < 0].  With squares and roots of 0 and 1 exact and [acos]
    returning 0, pi/2 and pi at 1, 0 and -1, the four unit vectors along
    the axes get the angles 0, pi/2, pi and 3 pi/2. *)
Theorem getAngleRad_by_quadrant :
  (forall (v : Position.t) (l : float),
     Position.mag v = Ok l ->
     ((l <=? 0)%float = true -> Position.getAngleRad v = Ok 0%float) /\
     ((l <=? 0)%float = false -> (0 <=? Position.y v)%float = true ->
        Position.getAngleRad v = math_acos (Position.x v / l)%float) /\
     ((l <=? 0)%float = false -> (Position.y v <? 0)%float = true ->
        Position.getAngleRad v =
        rbind (math_acos (Position.x v / l)%float)
              (fun a => Ok (2 * PyNum.pi - a)%float))) /\
  (float_pow 0 2 = Ok 0%float -> float_pow 1 2 = Ok 1%float ->
   float_pow (-1) 2 = Ok 1%float -> float_pow 1 0.5 = Ok 1%float ->
   math_acos 1 = Ok 0%float -> math_acos 0 = Ok (PyNum.pi / 2)%float ->
   math_acos (-1) = Ok PyNum.pi ->
   Position.getAngleRad (Position.mk 1 0 0) = Ok 0%float /\
   Position.getAngleRad (Position.mk 0 1 0) = Ok (PyNum.pi / 2)%float /\
   Position.getAngleRad (Position.mk (-1) 0 0) = Ok PyNum.pi /\
   Position.getAngleRad (Position.mk 0 (-1) 0) = Ok (3 * PyNum.pi / 2)%float).
Proof.
  split.
  - intros v l Hm. rewrite (getAngleRad_unfold _ _ Hm).
    repeat split.
    + intros ->. reflexivity.
    + intros Hl Hy. rewrite Hl, Hy.
      unfold PyNum.truediv.
      rewrite (FloatOrder.not_leb0_nonzero _ Hl). reflexivity.
    + intros Hl Hy. rewrite Hl.
      rewrite (FloatOrder.ltb_not_leb _ _ Hy).
      unfold PyNum.truediv.
      rewrite (FloatOrder.not_leb0_nonzero _ Hl). reflexivity.
  - intros P0 P1 Pm Ph A1 A0 Am.
    assert (M1 : Position.mag (Position.mk 1 0 0) = Ok 1%float)
      by (eapply mag_axis; eauto).
    assert (M2 : Position.mag (Position.mk 0 1 0) = Ok 1%float)
      by (eapply mag_axis; eauto).
    assert (M3 : Position.mag (Position.mk (-1) 0 0) = Ok 1%float)
      by (eapply mag_axis; eauto).
    assert (M4 : Position.mag (Position.mk 0 (-1) 0) = Ok 1%float)
      by (eapply mag_axis; eauto).
    rewrite (getAngleRad_unfold _ _ M1), (getAngleRad_unfold _ _ M2),
      (getAngleRad_unfold _ _ M3), (getAngleRad_unfold _ _ M4).
    unfold PyNum.truediv. simpl.
    change (1 / 1)%float with 1%float.
    change (0 / 1)%float with 0%float.
    change (-1 / 1)%float with (-1)%float.
    rewrite A1, A0, Am. simpl.
    repeat split.
Qed.

End PositionFacts.

(* ================================================================= *)
(** ** The report *)

Section ReportFacts.
Context `{B : Builtins} `{K : SceneSink}.

Lemma report_header_ok (truss : TrussModel.t) :
  Spec.material_set (TrussModel.material truss) ->
  exists st0, TrussView.report_header truss = Ok st0.
Proof.
  intros (u & y & e & f & Hm). unfold TrussView.report_header.
  rewrite Hm. simpl. eexists. reflexivity.
Qed.

Lemma displayReport_without_longest
    (truss : TrussModel.t) (view : TrussView.t) (st0 st : string) :
  TrussView.report_header truss = Ok st0 ->
  TrussView.report_links (TrussModel.links truss) (None, st0) = Ok (None, st) ->
  TrussView.displayReport truss view =
  (Raise AttributeError, TrussView.set_te_Report st view).
Proof.
  intros Hh Hl. unfold TrussView.displayReport, bind, lift, modify.
  rewrite Hh, Hl. reflexivity.
Qed.

Lemma displayReport_with_longest
    (truss : TrussModel.t) (view : TrussView.t) (st0 st : string)
    (r : Link.t) (len : float) :
  TrussView.report_header truss = Ok st0 ->
  TrussView.report_links (TrussModel.links truss) (None, st0) = Ok (Some r, st) ->
  Link.length r = Some len ->
  TrussView.displayReport truss view =
  (Ok tt,
   TrussView.mk (TrussView.scene view) (Link.name r) (Link.node1_Name r)
     (Link.node2_Name r) (format_2f len) st).
Proof.
  intros Hh Hl Hlen. unfold TrussView.displayReport, bind, lift, modify.
  rewrite Hh, Hl. simpl. rewrite Hlen. reflexivity.
Qed.

Lemma report_row_derived (l lg : Link.t) (st : string) :
  Spec.derived l -> Spec.derived lg ->
  exists st',
    TrussView.report_row l (Some lg, st) =
    Ok (Some (if match Link.length l, Link.length lg with
                 | Some u, Some v => (v <? u)%float
                 | _, _ => false
                 end then l else lg), st').
Proof.
  intros [[u Hu] [a Ha]] [[v Hv] _]. unfold TrussView.report_row.
  rewrite Hu, Hv, Ha. simpl. destruct (v <? u)%float; eexists; reflexivity.
Qed.

Lemma report_row_first (l : Link.t) (st : string) :
  Spec.derived l ->
  exists st', TrussView.report_row l (None, st) = Ok (Some l, st').
Proof.
  intros [[u Hu] [a Ha]]. unfold TrussView.report_row.
  rewrite Hu, Ha. simpl. eexists. reflexivity.
Qed.

Lemma report_links_cons (l : Link.t) (rest : list Link.t)
    (acc : option Link.t * string) :
  TrussView.report_links (l :: rest) acc =
  rbind (TrussView.report_row l acc) (TrussView.report_links rest).
Proof. reflexivity. Qed.

(** The loop invariant: the links seen so far are [before ++ lg :: mid],
    none in [before] is as long as [lg] and none in [mid] is longer. *)
Lemma report_links_longest (ls : list Link.t) :
  forall (before : list Link.t) (lg : Link.t) (mid : list Link.t)
         (st : string),
    Spec.derived lg ->
    (forall l, In l ls -> Spec.derived l) ->
    (forall l, In l before -> Spec.derived l) ->
    (forall l, In l mid -> Spec.derived l) ->
    (forall l, In l before -> ~ Spec.at_least_as_long l lg) ->
    (forall l, In l mid -> ~ Spec.longer l lg) ->
    exists before' r after st',
      TrussView.report_links ls (Some lg, st) = Ok (Some r, st') /\
      before ++ lg :: mid ++ ls = before' ++ r :: after /\
      (forall l, In l before' -> ~ Spec.at_least_as_long l r) /\
      (forall l, In l after -> ~ Spec.longer l r).
Proof.
  induction ls as [|l rest IH]; intros before lg mid st Dlg Dls Dbef Dmid Hbef Hmid.
  - exists before, lg, mid, st. rewrite app_nil_r. simpl. auto.
  - assert (Dl : Spec.derived l) by (apply Dls; left; reflexivity).
    destruct (report_row_derived l lg st Dl Dlg) as [st' Hrow].
    rewrite report_links_cons, Hrow. simpl rbind.
    destruct Dl as [[u Hu] Da]. destruct Dlg as [[v Hv] Dga].
    rewrite Hu, Hv.
    destruct (v <? u)%float eqn:Hcmp.
    + destruct (IH (before ++ lg :: mid) l [] st') as (b' & r & af & s' & H1 & H2 & H3 & H4).
      * split; [eauto | exact Da].
      * intros x Hx. apply Dls. right. exact Hx.
      * intros x Hx. apply in_app_or in Hx. destruct Hx as [Hx|[<-|Hx]]; auto.
        split; [eauto | exact Dga].
      * intros x [].
      * intros x Hx. unfold Spec.at_least_as_long. rewrite Hu.
        apply in_app_or in Hx. destruct Hx as [Hx|[<-|Hx]].
        -- specialize (Hbef x Hx). unfold Spec.at_least_as_long in Hbef.
           rewrite Hv in Hbef.
           destruct (Link.length x) as [w|]; [|tauto].
           intros Hle. apply Hbef.
           apply FloatOrder.ltb_leb.
           eapply FloatOrder.ltb_leb_trans; eassumption.
        -- rewrite Hv. rewrite (FloatOrder.ltb_not_leb _ _ Hcmp). discriminate.
        -- specialize (Hmid x Hx). unfold Spec.longer in Hmid.
           rewrite Hv in Hmid.
           destruct (Link.length x) as [w|]; [|tauto].
           intros Hle. apply Hmid. simpl. f_equal.
           eapply FloatOrder.ltb_leb_trans; eassumption.
      * intros x [].
      * exists b', r, af, s'. split; [exact H1|]. split; [|auto].
        rewrite <- H2. rewrite <- !app_assoc. simpl. reflexivity.
    + destruct (IH before lg (mid ++ [l]) st') as (b' & r & af & s' & H1 & H2 & H3 & H4).
      * split; [eauto | exact Dga].
      * intros x Hx. apply Dls. right. exact Hx.
      * exact Dbef.
      * intros x Hx. apply in_app_or in Hx. destruct Hx as [Hx|[<-|[]]]; auto.
        split; [eauto | exact Da].
      * exact Hbef.
      * intros x Hx. apply in_app_or in Hx. destruct Hx as [Hx|[<-|[]]]; auto.
        unfold Spec.longer. rewrite Hu, Hv. simpl. rewrite Hcmp. discriminate.
      * exists b', r, af, s'. split; [exact H1|]. split; [|auto].
        rewrite <- H2. rewrite <- !app_assoc. simpl. reflexivity.
Qed.

(** Without NaN lengths, "not as long" is "shorter" and "not longer" is
    "no longer". *)
Lemma total_order_reading (links before : list Link.t) (r : Link.t)
    (after : list Link.t) :
  links = before ++ r :: after ->
  (forall l, In l before -> ~ Spec.at_least_as_long l r) ->
  (forall l, In l after -> ~ Spec.longer l r) ->
  (forall l, In l links -> Spec.measured l) ->
  (forall l, In l before -> Spec.shorter l r) /\
  (forall l, In l after -> Spec.no_longer l r).
Proof.
  intros -> Hb Ha Hm.
  destruct (Hm r (in_elt r before after)) as (v & Hv & Vn).
  split; intros l Hl.
  - destruct (Hm l) as (u & Hu & Un); [apply in_or_app; left; exact Hl|].
    specialize (Hb l Hl).
    unfold Spec.at_least_as_long, Spec.shorter in *. rewrite Hu, Hv in *.
    apply FloatOrder.not_leb_ltb; auto. apply not_true_is_false. exact Hb.
  - destruct (Hm l) as (u & Hu & Un);
      [apply in_or_app; right; right; exact Hl|].
    specialize (Ha l Hl).
    unfold Spec.longer, Spec.no_longer in *. rewrite Hu, Hv in *. simpl in Ha.
    apply FloatOrder.not_ltb_leb; auto. apply not_true_is_false.
    intros E. apply Ha. rewrite E. reflexivity.
Qed.

(** C1: a model with no links and every material value set: the report
    text is written, and then reading the name of the longest link, which
    is [None], raises [AttributeError].  The same happens at the end of an
    import of a file without link lines. *)
Theorem displayReport_without_links_raises :
  (forall (title : option string) (nodes : list Node.t) (u y e f : float)
          (view : TrussView.t),
     let truss := TrussModel.mk title [] nodes
                    (Material.mk (Some u) (Some y) (Some e) (Some f)) in
     exists st,
       TrussView.displayReport truss view =
       (Raise AttributeError, TrussView.set_te_Report st view)) /\
  fst (TrussController.ImportFromFile (B := Ref.builtins) (K := Ref.sink)
         ["title 'My Truss One'"; "material 1, 2, 3"; "static_factor 4";
          "node, A, 0, 0"; "node, B, 3, 4"]%string Ref.controller0)
  = Raise AttributeError.
Proof.
  split; [|vm_compute; reflexivity].
  intros title nodes u y e f view truss.
  destruct (report_header_ok truss) as [st0 Hh].
  { exists u, y, e, f. reflexivity. }
  exists st0. apply displayReport_without_longest with (st0 := st0); [exact Hh|].
  reflexivity.
Qed.

(** C7: for a model with at least one link, every link derived and the
    material set, the report succeeds and shows as longest a link [r] of
    the sequence such that no link before [r] is as long as [r] and no link
    after [r] is longer; when no length is a NaN, every link before [r] is
    shorter and every link after [r] is no longer: [r] is the first link of
    maximal length.  For lengths 5, 10 and 7 it is the second link. *)
Theorem displayReport_longest_link :
  (forall (truss : TrussModel.t) (view : TrussView.t),
     TrussModel.links truss <> [] ->
     Spec.material_set (TrussModel.material truss) ->
     (forall l, In l (TrussModel.links truss) -> Spec.derived l) ->
     exists before r after len view',
       TrussModel.links truss = before ++ r :: after /\
       (forall l, In l before -> ~ Spec.at_least_as_long l r) /\
       (forall l, In l after -> ~ Spec.longer l r) /\
       ((forall l, In l (TrussModel.links truss) -> Spec.measured l) ->
        (forall l, In l before -> Spec.shorter l r) /\
        (forall l, In l after -> Spec.no_longer l r)) /\
       Link.length r = Some len /\
       TrussView.displayReport truss view = (Ok tt, view') /\
       TrussView.le_LongLinkName view' = Link.name r /\
       TrussView.le_LongLinkLength view' = format_2f len /\
       TrussView.le_LongLinkNode1 view' = Link.node1_Name r /\
       TrussView.le_LongLinkNode2 view' = Link.node2_Name r) /\
  (forall (truss : TrussModel.t) (view : TrussView.t) (a b c : Link.t),
     TrussModel.links truss = [a; b; c] ->
     Spec.material_set (TrussModel.material truss) ->
     Spec.derived a -> Spec.derived b -> Spec.derived c ->
     Link.length a = Some 5%float -> Link.length b = Some 10%float ->
     Link.length c = Some 7%float ->
     exists view',
       TrussView.displayReport truss view = (Ok tt, view') /\
       TrussView.le_LongLinkName view' = Link.name b /\
       TrussView.le_LongLinkLength view' = format_2f 10 /\
       TrussView.le_LongLinkNode1 view' = Link.node1_Name b /\
       TrussView.le_LongLinkNode2 view' = Link.node2_Name b).
Proof.
  split.
  - intros truss view Hne Hmat Hder.
    destruct (report_header_ok truss Hmat) as [st0 Hh].
    destruct (TrussModel.links truss) as [|l0 rest] eqn:Hlinks; [congruence|].
    assert (D0 : Spec.derived l0) by (apply Hder; left; reflexivity).
    destruct (report_row_first l0 st0 D0) as [st1 Hrow].
    assert (Hrest : forall x, In x rest -> Spec.derived x)
      by (intros x Hx; apply Hder; right; exact Hx).
    assert (Hnil : forall (P : Link.t -> Prop) x, In x [] -> P x)
      by (intros P x []).
    destruct (report_links_longest rest [] l0 [] st1 D0 Hrest
                (Hnil _) (Hnil _) (Hnil _) (Hnil _)) as
      (before & r & after & st & H1 & H2 & H3 & H4).
    simpl in H2.
    assert (Dr : Spec.derived r) by (apply Hder; rewrite H2; apply in_elt).
    destruct Dr as [[len Hlen] _].
    exists before, r, after, len. eexists.
    split; [exact H2|]. split; [exact H3|]. split; [exact H4|].
    split; [apply (total_order_reading _ _ _ _ H2 H3 H4)|].
    split; [exact Hlen|]. split.
    + apply displayReport_with_longest
        with (st0 := st0) (st := st) (r := r) (len := len); auto.
      rewrite Hlinks, report_links_cons, Hrow. exact H1.
    + simpl. auto.
  - intros truss view a b c Hlinks Hmat Da Db Dc La Lb Lc.
    destruct (report_header_ok truss Hmat) as [st0 Hh].
    destruct Da as [_ [aa Ha]], Db as [_ [ab Hb]], Dc as [_ [ac Hc]].
    destruct a as [na a1 a2 la ra], b as [nb b1 b2 lb rb],
             c as [nc c1 c2 lc rc]; simpl in *; subst.
    eexists. split.
    + eapply displayReport_with_longest
        with (st0 := st0) (len := 10%float)
             (r := Link.mk nb b1 b2 (Some 10%float) (Some ab));
        [exact Hh| |reflexivity].
      rewrite Hlinks. reflexivity.
    + simpl. auto.
Qed.

End ReportFacts.

(* ================================================================= *)
(** ** The import *)

Lemma for_each_app {S A} (f : A -> M S unit) (xs ys : list A) (s : S) :
  for_each (xs ++ ys) f s = bind (for_each xs f) (fun _ => for_each ys f) s.
Proof.
  revert s. induction xs as [|a xs IH]; intros s; simpl.
  - reflexivity.
  - unfold bind in *. destruct (f a s) as [[[]|e] s']; [|reflexivity].
    apply IH.
Qed.

Section ImportFacts.
Context `{B : Builtins} `{K : SceneSink}.

Ltac unfold_m :=
  unfold TrussController.importTitle, TrussController.importMaterial,
    TrussController.importSF, TrussController.importLink,
    TrussController.importNode, TrussController.addNode,
    TrussController.addLink, TrussController.on_material,
    TrussController.on_truss, TrussController.float_field,
    TrussController.name_field, bind, lift, get, modify, ret, rbind in *.

Ltac case_matches :=
  repeat (simpl;
          match goal with
          | |- context [match ?x with _ => _ end] => destruct x eqn:?
          end);
  simpl.

Lemma scanLine_line (data : list string) (i : nat) (line : string) :
  nth_error data i = Some line ->
  forall self, TrussController.scanLine data i self = Spec.step line self.
Proof.
  intros Hn self. unfold Spec.step, TrussController.scanLine.
  unfold_m. unfold PyStr.index. rewrite Hn. simpl nth_error. cbv iota.
  repeat match goal with
         | |- context [if ?c then _ else _] => destruct c; try reflexivity
         end;
    rewrite Hn; reflexivity.
Qed.

Lemma scan_lines_from (post : list string) :
  forall (pre : list string) (self : TrussController.t),
    for_each (seq (List.length pre) (List.length post))
      (TrussController.scanLine (pre ++ post)) self
    = for_each post Spec.step self.
Proof.
  induction post as [|a post IH]; intros pre self; simpl.
  - reflexivity.
  - unfold bind. rewrite (scanLine_line _ _ a).
    + destruct (Spec.step a self) as [[[]|e] s']; [|reflexivity].
      specialize (IH (pre ++ [a]) s').
      rewrite <- app_assoc, length_app, Nat.add_1_r in IH. exact IH.
    + rewrite nth_error_app2, Nat.sub_diag by lia. reflexivity.
Qed.

Lemma scan_lines (data : list string) (self : TrussController.t) :
  TrussController.scan data self = for_each data Spec.step self.
Proof. exact (scan_lines_from data [] self). Qed.

Lemma step_kind (line : string) (self : TrussController.t) :
  Spec.step line self =
  match Spec.line_kind line with
  | Spec.KComment | Spec.KOther => (Ok tt, self)
  | Spec.KTitle => TrussController.importTitle [line] 0 self
  | Spec.KLink => TrussController.importLink [line] 0 self
  | Spec.KNode => TrussController.importNode [line] 0 self
  | Spec.KMaterial => TrussController.importMaterial [line] 0 self
  | Spec.KStaticFactor => TrussController.importSF [line] 0 self
  end.
Proof.
  unfold Spec.step, TrussController.scanLine, Spec.line_kind.
  unfold bind at 1. unfold lift at 1.
  change (PyStr.index [line] 0) with (@Ok string line). cbv iota.
  repeat match goal with
         | |- context [if ?c then _ else _] => destruct c; try reflexivity
         end.
Qed.

Ltac open_importer line :=
  unfold TrussController.importNode, TrussController.importLink,
    TrussController.importTitle, TrussController.importMaterial,
    TrussController.importSF;
  unfold bind at 1; unfold lift at 1;
  change (PyStr.index [line] 0) with (@Ok string line); cbv iota;
  try change (map PyStr.strip (PyStr.split_on "," (PyStr.strip line)))
    with (Spec.node_fields line).

Lemma importNode_new (line : string) (self : TrussController.t)
    (kw name sx sy : string) (rest : list string) (x y : float) :
  Spec.node_fields line = kw :: name :: sx :: sy :: rest ->
  TrussController.hasNode name self = false ->
  float_of_string sx = Ok x -> float_of_string sy = Ok y ->
  TrussController.importNode [line] 0 self =
  (Ok tt, Spec.add_node (Node.mk (Some name) (Position.mk x y 0)) self).
Proof.
  intros Hf Hn Hx Hy. open_importer line.
  rewrite Hf. unfold_m. simpl. rewrite Hn. simpl. rewrite Hx, Hy.
  reflexivity.
Qed.

Lemma importNode_cases (line : string) (self : TrussController.t) :
  snd (TrussController.importNode [line] 0 self) = self \/
  exists kw name sx sy rest x y,
    Spec.node_fields line = kw :: name :: sx :: sy :: rest /\
    TrussController.hasNode name self = false /\
    float_of_string sx = Ok x /\ float_of_string sy = Ok y /\
    TrussController.importNode [line] 0 self =
    (Ok tt, Spec.add_node (Node.mk (Some name) (Position.mk x y 0)) self).
Proof.
  destruct (Spec.node_fields line) as [|kw [|name [|sx [|sy rest]]]] eqn:Hf;
    try (left; open_importer line; rewrite Hf; reflexivity).
  destruct (TrussController.hasNode name self) eqn:Hn.
  - left. open_importer line.
    rewrite Hf. unfold_m. simpl. rewrite Hn. reflexivity.
  - destruct (float_of_string sx) as [x|e] eqn:Hx;
      [destruct (float_of_string sy) as [y|e] eqn:Hy|].
    + right. exists kw, name, sx, sy, rest, x, y.
      repeat split; auto. eapply importNode_new; eauto.
    + left. open_importer line.
      rewrite Hf. unfold_m. simpl. rewrite Hn. simpl. rewrite Hx, Hy.
      reflexivity.
    + left. open_importer line.
      rewrite Hf. unfold_m. simpl. rewrite Hn. simpl. rewrite Hx.
      reflexivity.
Qed.

Lemma importLink_fields (line : string) (self : TrussController.t)
    (kw name node1 node2 : string) (rest : list string) :
  Spec.link_fields line = kw :: name :: node1 :: node2 :: rest ->
  TrussController.importLink [line] 0 self =
  if TrussController.hasNode node1 self && TrussController.hasNode node2 self
     && negb (existsb (fun l => String.eqb (Link.name l) name)
                      (Spec.links_of self))
  then (Ok tt, Spec.add_link (Link.mk name node1 node2 None None) self)
  else (Ok tt, self).
Proof.
  unfold Spec.link_fields. intros Hf. open_importer line.
  destruct (PyStr.split (PyStr.strip line)) as [|p0 [|p1 [|p2 [|p3 ps]]]];
    try discriminate.
  simpl in Hf. injection Hf as _ <- <- <- _.
  unfold_m. simpl.
  fold (Spec.links_of self).
  destruct (TrussController.hasNode _ self && TrussController.hasNode _ self
            && negb _); reflexivity.
Qed.

Lemma importLink_cases (line : string) (self : TrussController.t) :
  snd (TrussController.importLink [line] 0 self) = self \/
  exists kw name node1 node2 rest,
    Spec.link_fields line = kw :: name :: node1 :: node2 :: rest /\
    TrussController.hasNode node1 self = true /\
    TrussController.hasNode node2 self = true /\
    TrussController.importLink [line] 0 self =
    (Ok tt, Spec.add_link (Link.mk name node1 node2 None None) self).
Proof.
  destruct (Spec.link_fields line) as [|kw [|name [|n1 [|n2 rest]]]] eqn:Hf.
  1-4: left; open_importer line; unfold Spec.link_fields in Hf;
    destruct (PyStr.split (PyStr.strip line)) as [|p0 [|p1 [|p2 [|p3 ps]]]];
    try discriminate; reflexivity.
  rewrite (importLink_fields _ _ _ _ _ _ _ Hf).
  destruct (TrussController.hasNode n1 self) eqn:H1;
    destruct (TrussController.hasNode n2 self) eqn:H2;
    simpl; auto.
  destruct (negb _); simpl; auto.
  right. exists kw, name, n1, n2, rest. auto.
Qed.

(** A link line that names a node the model does not have changes
    nothing and raises nothing. *)
Lemma importLink_dangling (line : string) (self : TrussController.t)
    (name node1 node2 : string) :
  Spec.declares_link line name node1 node2 ->
  TrussController.hasNode node1 self = false \/
  TrussController.hasNode node2 self = false ->
  Spec.step line self = (Ok tt, self).
Proof.
  intros [Hk (kw & rest & Hf)] Hd. rewrite step_kind, Hk.
  rewrite (importLink_fields _ _ _ _ _ _ _ Hf).
  destruct Hd as [-> | ->]; simpl; rewrite ?andb_false_r; reflexivity.
Qed.

Lemma other_importers (line : string) (self : TrussController.t) :
  let same p := Spec.nodes_of (snd p) = Spec.nodes_of self /\
                Spec.links_of (snd p) = Spec.links_of self in
  same (TrussController.importTitle [line] 0 self) /\
  same (TrussController.importMaterial [line] 0 self) /\
  same (TrussController.importSF [line] 0 self).
Proof.
  cbv zeta. unfold Spec.nodes_of, Spec.links_of.
  repeat split; unfold_m; case_matches; reflexivity.
Qed.

Lemma step_nodes (line : string) (self : TrussController.t) :
  Spec.nodes_of (snd (Spec.step line self)) = Spec.nodes_of self \/
  exists name p,
    Spec.declares_node line name /\
    TrussController.hasNode name self = false /\
    Spec.step line self = (Ok tt, Spec.add_node (Node.mk (Some name) p) self).
Proof.
  rewrite step_kind.
  destruct (other_importers line self) as ([T _] & [Ma _] & [S _]).
  destruct (Spec.line_kind line) eqn:Hk; auto.
  - destruct (importLink_cases line self)
      as [-> | (kw & nm & n1 & n2 & rest & _ & _ & _ & ->)]; auto.
  - destruct (importNode_cases line self)
      as [-> | (kw & nm & sx & sy & rest & x & y & Hf & Hn & _ & _ & E)]; auto.
    right. exists nm, (Position.mk x y 0). repeat split; auto.
    exists kw, sx, sy, rest. exact Hf.
Qed.

Lemma step_links (line : string) (self : TrussController.t) :
  Spec.links_of (snd (Spec.step line self)) = Spec.links_of self \/
  exists name node1 node2,
    Spec.declares_link line name node1 node2 /\
    TrussController.hasNode node1 self = true /\
    TrussController.hasNode node2 self = true /\
    Spec.step line self =
    (Ok tt, Spec.add_link (Link.mk name node1 node2 None None) self).
Proof.
  rewrite step_kind.
  destruct (other_importers line self) as ([_ T] & [_ Ma] & [_ S]).
  destruct (Spec.line_kind line) eqn:Hk; auto.
  - destruct (importLink_cases line self)
      as [-> | (kw & nm & n1 & n2 & rest & Hf & H1 & H2 & E)]; auto.
    right. exists nm, n1, n2. repeat split; auto.
    exists kw, rest. exact Hf.
  - destruct (importNode_cases line self)
      as [-> | (kw & nm & sx & sy & rest & x & y & _ & _ & _ & _ & ->)]; auto.
Qed.

Lemma for_each_cons_snd (line : string) (rest : list string)
    (self : TrussController.t) :
  snd (for_each (line :: rest) Spec.step self) =
  match fst (Spec.step line self) with
  | Ok _ => snd (for_each rest Spec.step (snd (Spec.step line self)))
  | Raise _ => snd (Spec.step line self)
  end.
Proof.
  simpl. unfold bind.
  destruct (Spec.step line self) as [[[]|e] s']; reflexivity.
Qed.

(** Every node the scan adds is named by a node line. *)
Lemma scan_nodes_declared (lines : list string) :
  forall (self : TrussController.t) (N : Node.t),
    In N (Spec.nodes_of (snd (for_each lines Spec.step self))) ->
    In N (Spec.nodes_of self) \/
    exists name line,
      Node.name N = Some name /\ In line lines /\ Spec.declares_node line name.
Proof.
  induction lines as [|line rest IH]; intros self N HN.
  - left. exact HN.
  - rewrite for_each_cons_snd in HN.
    assert (Hstep : forall N,
               In N (Spec.nodes_of (snd (Spec.step line self))) ->
               In N (Spec.nodes_of self) \/
               exists name l,
                 Node.name N = Some name /\ In l (line :: rest) /\
                 Spec.declares_node l name).
    { intros N' HN'.
      destruct (step_nodes line self) as [E | (nm & p & Hd & _ & E)].
      - left. rewrite <- E. exact HN'.
      - rewrite E in HN'. unfold Spec.add_node, Spec.nodes_of in HN'.
        simpl in HN'. apply in_app_or in HN'.
        destruct HN' as [HN'|[<-|[]]]; [left; exact HN'|].
        right. exists nm, line. simpl. auto. }
    destruct (fst (Spec.step line self)); [|auto].
    destruct (IH _ _ HN) as [HN'|(nm & l & H1 & H2 & H3)]; [auto|].
    right. exists nm, l. simpl. auto.
Qed.

(** Every link the scan adds is described by a link line. *)
Lemma scan_links_declared (lines : list string) :
  forall (self : TrussController.t) (L : Link.t),
    In L (Spec.links_of (snd (for_each lines Spec.step self))) ->
    In L (Spec.links_of self) \/
    exists line,
      In line lines /\
      Spec.declares_link line (Link.name L) (Link.node1_Name L)
        (Link.node2_Name L).
Proof.
  induction lines as [|line rest IH]; intros self L HL.
  - left. exact HL.
  - rewrite for_each_cons_snd in HL.
    assert (Hstep : forall L,
               In L (Spec.links_of (snd (Spec.step line self))) ->
               In L (Spec.links_of self) \/
               exists l,
                 In l (line :: rest) /\
                 Spec.declares_link l (Link.name L) (Link.node1_Name L)
                   (Link.node2_Name L)).
    { intros L' HL'.
      destruct (step_links line self) as [E | (nm & n1 & n2 & Hd & _ & _ & E)].
      - left. rewrite <- E. exact HL'.
      - rewrite E in HL'. unfold Spec.add_link, Spec.links_of in HL'.
        simpl in HL'. apply in_app_or in HL'.
        destruct HL' as [HL'|[<-|[]]]; [left; exact HL'|].
        right. exists line. simpl. auto. }
    destruct (fst (Spec.step line self)); [|auto].
    destruct (IH _ _ HL) as [HL'|(l & H1 & H2)]; [auto|].
    right. exists l. simpl. auto.
Qed.

Lemma hasNode_filter (name : string) (self : TrussController.t) :
  TrussController.hasNode name self = false <->
  filter (Node.named name) (Spec.nodes_of self) = [].
Proof.
  unfold TrussController.hasNode, Spec.nodes_of.
  induction (TrussModel.nodes (TrussController.truss self)) as [|n ns IH];
    simpl; [tauto|].
  destruct (Node.named name n); simpl; [split; discriminate | exact IH].
Qed.

(** Once a name has its node, the scan adds no second one. *)
Lemma scan_keeps_node (lines : list string) (name : string) (N : Node.t) :
  forall self : TrussController.t,
    filter (Node.named name) (Spec.nodes_of self) = [N] ->
    filter (Node.named name)
      (Spec.nodes_of (snd (for_each lines Spec.step self))) = [N].
Proof.
  induction lines as [|line rest IH]; intros self HN; [exact HN|].
  rewrite for_each_cons_snd.
  assert (Hstep : filter (Node.named name)
                    (Spec.nodes_of (snd (Spec.step line self))) = [N]).
  { destruct (step_nodes line self) as [E | (nm & p & _ & Hn & E)].
    - rewrite E. exact HN.
    - rewrite E. unfold Spec.add_node, Spec.nodes_of at 1. simpl.
      rewrite filter_app, HN. simpl. unfold Node.named at 1. simpl.
      destruct (String.eqb nm name) eqn:Heq; [|reflexivity].
      apply String.eqb_eq in Heq. subst nm.
      apply hasNode_filter in Hn. congruence. }
  destruct (fst (Spec.step line self)); auto.
Qed.

Lemma resetModel_cleared (self : TrussController.t) :
  TrussController.resetModel self =
  (Ok tt, TrussController.set_truss Spec.cleared self).
Proof. reflexivity. Qed.

Lemma ImportFromFile_unfold (data : list string) (self : TrussController.t) :
  TrussController.ImportFromFile data self =
  bind (for_each data Spec.step) (fun _ => Spec.finish)
    (TrussController.set_truss Spec.cleared self).
Proof.
  unfold TrussController.ImportFromFile. unfold bind at 1.
  rewrite resetModel_cleared. unfold bind at 1 4.
  rewrite scan_lines. reflexivity.
Qed.

Lemma for_inplace_ends (body : M Link.t unit) :
  (forall l, Spec.same_ends l (snd (body l))) ->
  forall ls, Forall2 Spec.same_ends ls
               (snd (TrussController.for_inplace body ls)).
Proof.
  intros Hb. induction ls as [|l ls IH]; simpl; [constructor|].
  specialize (Hb l).
  destruct (body l) as [[[]|e] l'].
  - destruct (TrussController.for_inplace body ls) as [r ls'].
    simpl in *. constructor; assumption.
  - simpl. constructor; [exact Hb|].
    clear. induction ls; constructor; auto. repeat split.
Qed.

Lemma calcLink_ends (self : TrussController.t) (l : Link.t) :
  Spec.same_ends l (snd (TrussController.calcLink self l)).
Proof.
  unfold TrussController.calcLink, bind, get, lift, modify, ret.
  case_matches; repeat split.
Qed.

Lemma calcLinkVals_truss (self : TrussController.t) :
  TrussController.calcLinkVals self =
  (fst (TrussController.for_inplace (TrussController.calcLink self)
          (Spec.links_of self)),
   TrussController.set_truss
     (TrussModel.set_links
        (snd (TrussController.for_inplace (TrussController.calcLink self)
                (Spec.links_of self)))
        (TrussController.truss self)) self).
Proof.
  unfold TrussController.calcLinkVals, Spec.links_of.
  destruct (TrussController.for_inplace _ _). reflexivity.
Qed.

Lemma report_and_draw_truss (self : TrussController.t) :
  TrussController.truss (snd (TrussController.displayReport self)) =
  TrussController.truss self /\
  TrussController.truss (snd (TrussController.drawTruss self)) =
  TrussController.truss self.
Proof.
  unfold TrussController.displayReport, TrussController.drawTruss.
  destruct (TrussView.displayReport _ _), (TrussView.buildScene _ _).
  split; reflexivity.
Qed.

(** After the loop only the lengths and angles of the links change. *)
Lemma finish_model (self : TrussController.t) :
  Spec.nodes_of (snd (Spec.finish self)) = Spec.nodes_of self /\
  Forall2 Spec.same_ends (Spec.links_of self)
    (Spec.links_of (snd (Spec.finish self))).
Proof.
  unfold Spec.finish, bind. rewrite calcLinkVals_truss.
  pose proof (for_inplace_ends _ (calcLink_ends self) (Spec.links_of self))
    as Hends.
  set (s1 := TrussController.set_truss _ self).
  assert (H1 : Spec.nodes_of s1 = Spec.nodes_of self) by reflexivity.
  assert (H2 : Forall2 Spec.same_ends (Spec.links_of self) (Spec.links_of s1))
    by exact Hends.
  clearbody s1.
  destruct (fst (TrussController.for_inplace _ _)); [|auto].
  destruct (report_and_draw_truss s1) as [Hr _].
  destruct (TrussController.displayReport s1) as [[[]|e] s2]; simpl in Hr.
  - destruct (report_and_draw_truss s2) as [_ Hd].
    unfold Spec.nodes_of, Spec.links_of in *.
    destruct (TrussController.drawTruss s2) as [r s3]. simpl in *.
    rewrite Hd, Hr. auto.
  - unfold Spec.nodes_of, Spec.links_of in *. simpl. rewrite Hr. auto.
Qed.

Lemma agree_refl (p : result unit * TrussController.t) : Spec.agree p p.
Proof. split; reflexivity. Qed.

(** One line does the same to two controllers that hold the same model. *)
Lemma step_agree (line : string) (s1 s2 : TrussController.t) :
  TrussController.truss s1 = TrussController.truss s2 ->
  Spec.agree (Spec.step line s1) (Spec.step line s2).
Proof.
  destruct s1 as [tm v1], s2 as [tm2 v2]. simpl. intros <-.
  rewrite !step_kind. unfold Spec.agree.
  destruct (Spec.line_kind line);
    unfold_m; unfold TrussController.hasNode; simpl;
    case_matches; split; reflexivity.
Qed.

Lemma scan_agree (lines : list string) :
  forall s1 s2 : TrussController.t,
    TrussController.truss s1 = TrussController.truss s2 ->
    Spec.agree (for_each lines Spec.step s1) (for_each lines Spec.step s2).
Proof.
  induction lines as [|line rest IH]; intros s1 s2 H.
  - split; [reflexivity | exact H].
  - simpl. unfold bind.
    destruct (step_agree line s1 s2 H) as [Hr Ht].
    destruct (Spec.step line s1) as [r1 s1'], (Spec.step line s2) as [r2 s2'].
    simpl in Hr, Ht. subst r2.
    destruct r1 as [[]|e]; [apply IH; exact Ht | split; [reflexivity | exact Ht]].
Qed.

Lemma for_inplace_ext {A} (f g : M A unit) (xs : list A) :
  (forall a, f a = g a) ->
  TrussController.for_inplace f xs = TrussController.for_inplace g xs.
Proof.
  intros H. induction xs as [|a xs IH]; simpl; [reflexivity|].
  rewrite H, IH. reflexivity.
Qed.

Lemma calcLinkVals_agree (s1 s2 : TrussController.t) :
  TrussController.truss s1 = TrussController.truss s2 ->
  Spec.agree (TrussController.calcLinkVals s1) (TrussController.calcLinkVals s2).
Proof.
  intros H. rewrite !calcLinkVals_truss. unfold Spec.links_of.
  rewrite (for_inplace_ext (TrussController.calcLink s1)
             (TrussController.calcLink s2)).
  - rewrite H. split; reflexivity.
  - intros l. unfold TrussController.calcLink, TrussController.hasNode,
      TrussController.getNode. rewrite H. reflexivity.
Qed.

Lemma displayReport_outcome (tm : TrussModel.t) (v1 v2 : TrussView.t) :
  fst (TrussView.displayReport tm v1) = fst (TrussView.displayReport tm v2).
Proof.
  unfold TrussView.displayReport, bind, lift, modify.
  destruct (TrussView.report_header tm); [|reflexivity].
  destruct (TrussView.report_links _ _) as [[[r|] st]|e]; simpl;
    try reflexivity.
  destruct (PyNum.fmt_2f (Link.length r)); reflexivity.
Qed.

Lemma displayReport_agree (s1 s2 : TrussController.t) :
  TrussController.truss s1 = TrussController.truss s2 ->
  Spec.agree (TrussController.displayReport s1)
    (TrussController.displayReport s2).
Proof.
  intros H. split.
  - unfold TrussController.displayReport. rewrite H.
    pose proof (displayReport_outcome (TrussController.truss s2)
                  (TrussController.view s1) (TrussController.view s2)) as E.
    destruct (TrussView.displayReport _ (TrussController.view s1)),
             (TrussView.displayReport _ (TrussController.view s2)).
    exact E.
  - destruct (report_and_draw_truss s1) as [-> _].
    destruct (report_and_draw_truss s2) as [-> _]. exact H.
Qed.

Lemma finish_same_truss (s1 s2 : TrussController.t) :
  TrussController.truss s1 = TrussController.truss s2 ->
  TrussController.truss (snd (Spec.finish s1)) =
  TrussController.truss (snd (Spec.finish s2)).
Proof.
  intros H. unfold Spec.finish, bind.
  destruct (calcLinkVals_agree s1 s2 H) as [Hr Ht].
  destruct (TrussController.calcLinkVals s1) as [r1 a1],
           (TrussController.calcLinkVals s2) as [r2 a2].
  simpl in Hr, Ht. subst r2. destruct r1 as [[]|e]; [|exact Ht].
  destruct (displayReport_agree a1 a2 Ht) as [Hr' Ht'].
  destruct (TrussController.displayReport a1) as [r1 b1],
           (TrussController.displayReport a2) as [r2 b2].
  simpl in Hr', Ht'. subst r2. destruct r1 as [[]|e]; [|exact Ht'].
  destruct (report_and_draw_truss b1) as [_ ->].
  destruct (report_and_draw_truss b2) as [_ ->]. exact Ht'.
Qed.

Lemma same_ends_refl (ls : list Link.t) : Forall2 Spec.same_ends ls ls.
Proof. induction ls; constructor; auto. repeat split. Qed.

(** The model an import leaves, in terms of the one the loop leaves. *)
Lemma import_final (data : list string) (self : TrussController.t) :
  let scanned :=
    snd (for_each data Spec.step (TrussController.set_truss Spec.cleared self)) in
  let final := snd (TrussController.ImportFromFile data self) in
  Spec.nodes_of final = Spec.nodes_of scanned /\
  Forall2 Spec.same_ends (Spec.links_of scanned) (Spec.links_of final).
Proof.
  cbv zeta. rewrite ImportFromFile_unfold. unfold bind.
  destruct (for_each data Spec.step _) as [[[]|e] s1]; simpl.
  - apply finish_model.
  - split; [reflexivity | apply same_ends_refl].
Qed.

Lemma import_nodes_declared (data : list string) (self : TrussController.t)
    (N : Node.t) :
  In N (Spec.nodes_of (snd (TrussController.ImportFromFile data self))) ->
  exists name line,
    Node.name N = Some name /\ In line data /\ Spec.declares_node line name.
Proof.
  destruct (import_final data self) as [-> _]. intros HN.
  apply scan_nodes_declared in HN. destruct HN as [[]|HN]. exact HN.
Qed.

Lemma import_links_declared (data : list string) (self : TrussController.t)
    (L : Link.t) :
  In L (Spec.links_of (snd (TrussController.ImportFromFile data self))) ->
  exists line,
    In line data /\
    Spec.declares_link line (Link.name L) (Link.node1_Name L)
      (Link.node2_Name L).
Proof.
  destruct (import_final data self) as [_ HF]. intros HL.
  assert (H0 : exists L0,
             In L0 (Spec.links_of (snd (for_each data Spec.step
                      (TrussController.set_truss Spec.cleared self)))) /\
             Spec.same_ends L0 L).
  { revert HL. induction HF as [|a b la lb Hab _ IH]; intros HL; [destruct HL|].
    destruct HL as [<-|HL].
    - exists a. split; [left; reflexivity | exact Hab].
    - destruct (IH HL) as (L0 & HIn & Hs). exists L0. split; [right|]; auto. }
  destruct H0 as (L0 & HIn & (E1 & E2 & E3)).
  apply scan_links_declared in HIn. destruct HIn as [[]|(line & Hl & Hd)].
  exists line. rewrite E1, E2, E3. auto.
Qed.

(** C6: an import first puts the model in the cleared state, whatever it
    held; the model it leaves is the same from any two starting
    controllers, every node in it is named by a node line of the new
    file and every link in it is described by a link line of the new
    file. *)
Theorem import_forgets_the_previous_model
    (data : list string) (self self' : TrussController.t) :
  TrussController.truss (snd (TrussController.resetModel self)) = Spec.cleared /\
  TrussController.truss (snd (TrussController.ImportFromFile data self)) =
  TrussController.truss (snd (TrussController.ImportFromFile data self')) /\
  (forall N,
     In N (Spec.nodes_of (snd (TrussController.ImportFromFile data self))) ->
     exists name line,
       Node.name N = Some name /\ In line data /\
       Spec.declares_node line name) /\
  (forall L,
     In L (Spec.links_of (snd (TrussController.ImportFromFile data self))) ->
     exists line,
       In line data /\
       Spec.declares_link line (Link.name L) (Link.node1_Name L)
         (Link.node2_Name L)).
Proof.
  split; [reflexivity|]. split.
  - rewrite !ImportFromFile_unfold. unfold bind.
    destruct (scan_agree data
                (TrussController.set_truss Spec.cleared self)
                (TrussController.set_truss Spec.cleared self')
                eq_refl) as [Hr Ht].
    destruct (for_each data Spec.step
                (TrussController.set_truss Spec.cleared self)) as [r1 a1],
             (for_each data Spec.step
                (TrussController.set_truss Spec.cleared self')) as [r2 a2].
    simpl in Hr, Ht. subst r2. destruct r1 as [[]|e]; [|exact Ht].
    apply finish_same_truss, Ht.
  - split; intros X HX;
      [eapply import_nodes_declared | eapply import_links_declared];
      exact HX.
Qed.

(** C4: a link line that names a node the model does not have when the
    line is scanned adds nothing and raises nothing; the import goes on as
    if the line were not in the file, whatever follows it, so that the
    final model has no link of that name unless another line of the file
    describes one. *)
Theorem dangling_link_line_is_dropped
    (pre : list string) (line : string) (post : list string)
    (name node1 node2 : string) (self self1 : TrussController.t) :
  TrussController.scan pre (snd (TrussController.resetModel self))
  = (Ok tt, self1) ->
  Spec.declares_link line name node1 node2 ->
  TrussController.hasNode node1 self1 = false \/
  TrussController.hasNode node2 self1 = false ->
  TrussController.scanLine (pre ++ line :: post) (List.length pre) self1
  = (Ok tt, self1) /\
  TrussController.ImportFromFile (pre ++ line :: post) self =
  TrussController.ImportFromFile (pre ++ post) self /\
  ((forall l n1 n2, In l (pre ++ post) -> ~ Spec.declares_link l name n1 n2) ->
   forall L,
     In L (Spec.links_of
             (snd (TrussController.ImportFromFile (pre ++ line :: post) self))) ->
     Link.name L <> name).
Proof.
  intros Hpre Hd Hmiss.
  pose proof (importLink_dangling line self1 name node1 node2 Hd Hmiss) as Hstep.
  assert (Himp : TrussController.ImportFromFile (pre ++ line :: post) self =
                 TrussController.ImportFromFile (pre ++ post) self).
  { rewrite resetModel_cleared, scan_lines in Hpre. simpl in Hpre.
    rewrite !ImportFromFile_unfold.
    assert (Hscan : for_each (pre ++ line :: post) Spec.step
                      (TrussController.set_truss Spec.cleared self) =
                    for_each (pre ++ post) Spec.step
                      (TrussController.set_truss Spec.cleared self)).
    { rewrite !for_each_app. unfold bind. rewrite Hpre.
      simpl. unfold bind. rewrite Hstep. reflexivity. }
    unfold bind. rewrite Hscan. reflexivity. }
  split; [|split].
  - rewrite (scanLine_line _ _ line); [exact Hstep|].
    rewrite nth_error_app2, Nat.sub_diag by lia. reflexivity.
  - exact Himp.
  - intros Hno L HL Hname. rewrite Himp in HL.
    apply import_links_declared in HL. destruct HL as (l & Hin & Hdl).
    rewrite Hname in Hdl. exact (Hno _ _ _ Hin Hdl).
Qed.

(** C5: when the first node line that names [name] is reached and its two
    coordinates parse to [x] and [y], the final model has exactly one node
    of that name, at [(x, y, 0)], whatever lines follow: later node lines
    of the same name add nothing and raise nothing. *)
Theorem first_node_line_wins
    (pre : list string) (line : string) (post : list string)
    (kw name sx sy : string) (rest : list string) (x y : float)
    (self self1 : TrussController.t) :
  TrussController.scan pre (snd (TrussController.resetModel self))
  = (Ok tt, self1) ->
  (forall l, In l pre -> ~ Spec.declares_node l name) ->
  Spec.line_kind line = Spec.KNode ->
  Spec.node_fields line = kw :: name :: sx :: sy :: rest ->
  float_of_string sx = Ok x -> float_of_string sy = Ok y ->
  filter (Node.named name)
    (Spec.nodes_of
       (snd (TrussController.ImportFromFile (pre ++ line :: post) self)))
  = [Node.mk (Some name) (Position.mk x y 0)] /\
  (forall line' : string,
     Spec.declares_node line' name ->
     forall s : TrussController.t,
       TrussController.hasNode name s = true ->
       Spec.step line' s = (Ok tt, s)).
Proof.
  intros Hpre Hfirst Hk Hf Hx Hy.
  rewrite resetModel_cleared, scan_lines in Hpre. simpl in Hpre.
  split.
  - assert (Hnew : TrussController.hasNode name self1 = false).
    { apply not_true_is_false. intros Hhas.
      unfold TrussController.hasNode in Hhas.
      apply existsb_exists in Hhas. destruct Hhas as (N & HN & Hnamed).
      assert (HN' : In N (Spec.nodes_of
                     (snd (for_each pre Spec.step
                        (TrussController.set_truss Spec.cleared self)))))
        by (rewrite Hpre; exact HN).
      apply scan_nodes_declared in HN'.
      destruct HN' as [[]|(nm & l & Hnm & Hl & Hdl)].
      unfold Node.named in Hnamed. rewrite Hnm in Hnamed.
      apply String.eqb_eq in Hnamed. subst nm.
      exact (Hfirst l Hl Hdl). }
    destruct (import_final (pre ++ line :: post) self) as [-> _].
    rewrite for_each_app. unfold bind at 1. rewrite Hpre.
    rewrite for_each_cons_snd, step_kind, Hk.
    rewrite (importNode_new line self1 kw name sx sy rest x y Hf Hnew Hx Hy).
    simpl fst. simpl snd. cbv iota.
    apply scan_keeps_node.
    unfold Spec.add_node, Spec.nodes_of at 1. simpl.
    rewrite filter_app. apply hasNode_filter in Hnew. rewrite Hnew.
    simpl. unfold Node.named at 1. simpl. rewrite String.eqb_refl.
    reflexivity.
  - intros line' [Hk' (kw' & sx' & sy' & rest' & Hf')] s Hs.
    rewrite step_kind, Hk'. open_importer line'.
    rewrite Hf'. unfold_m. simpl. rewrite Hs. reflexivity.
Qed.

Lemma finish_truss (self : TrussController.t) :
  TrussController.truss (snd (Spec.finish self)) =
  TrussModel.set_links
    (snd (TrussController.for_inplace (TrussController.calcLink self)
            (Spec.links_of self)))
    (TrussController.truss self).
Proof.
  unfold Spec.finish, bind. rewrite calcLinkVals_truss.
  set (s1 := TrussController.set_truss _ self).
  change (TrussModel.set_links _ _) with (TrussController.truss s1).
  clearbody s1.
  destruct (fst (TrussController.for_inplace _ _)); [|reflexivity].
  destruct (report_and_draw_truss s1) as [Hr _].
  destruct (TrussController.displayReport s1) as [[[]|e] s2]; simpl in Hr;
    [|exact Hr].
  destruct (report_and_draw_truss s2) as [_ Hd].
  destruct (TrussController.drawTruss s2) as [r s3]. simpl in *.
  congruence.
Qed.

(** A link whose two nodes resolve gets the magnitude of the displacement
    between them as its length. *)
Lemma calcLink_resolved (self : TrussController.t) (l : Link.t)
    (a b : Node.t) (len : float) :
  TrussController.getNode (Link.node1_Name l) self = Some a ->
  TrussController.getNode (Link.node2_Name l) self = Some b ->
  Position.mag (Position.__sub__ (Node.position b) (Node.position a)) = Ok len ->
  exists angle,
    snd (TrussController.calcLink self l) =
    Link.mk (Link.name l) (Link.node1_Name l) (Link.node2_Name l)
      (Some len) angle.
Proof.
  intros Ha Hb Hm.
  assert (H1 : TrussController.hasNode (Link.node1_Name l) self = true).
  { apply find_some in Ha. apply existsb_exists. eauto. }
  assert (H2 : TrussController.hasNode (Link.node2_Name l) self = true).
  { apply find_some in Hb. apply existsb_exists. eauto. }
  unfold TrussController.calcLink, bind, get, lift, modify.
  rewrite H1, H2, Ha, Hb, Hm.
  destruct (Position.getAngleRad _); eexists; reflexivity.
Qed.

(** C3: the file with node A at (0, 0), node B at (3, 4) and link L1 from
    A to B leaves a model with that one link, of length 5.0; in general a
    link whose nodes resolve gets the magnitude of the displacement from
    its first node to its second. *)
Theorem import_3_4_5_triangle (self : TrussController.t) :
  float_of_string "0" = Ok 0%float ->
  float_of_string "3" = Ok 3%float ->
  float_of_string "4" = Ok 4%float ->
  float_pow 0 2 = Ok 0%float ->
  float_pow 3 2 = Ok 9%float ->
  float_pow 4 2 = Ok 16%float ->
  float_pow 25 0.5 = Ok 5%float ->
  (exists angle,
     Spec.links_of
       (snd (TrussController.ImportFromFile
               ["node, A, 0, 0"; "node, B, 3, 4"; "link L1, A, B"]%string self))
     = [Link.mk "L1" "A" "B" (Some 5%float) angle]) /\
  (forall (s : TrussController.t) (l : Link.t) (a b : Node.t) (len : float),
     TrussController.getNode (Link.node1_Name l) s = Some a ->
     TrussController.getNode (Link.node2_Name l) s = Some b ->
     Position.mag (Position.__sub__ (Node.position b) (Node.position a))
     = Ok len ->
     Link.length (snd (TrussController.calcLink s l)) = Some len).
Proof.
  intros F0 F3 F4 P0 P3 P4 P25. split.
  - rewrite ImportFromFile_unfold. unfold bind at 1.
    set (s0 := TrussController.set_truss Spec.cleared self).
    set (A := Node.mk (Some "A"%string) (Position.mk 0 0 0)).
    set (Bn := Node.mk (Some "B"%string) (Position.mk 3 4 0)).
    set (L := Link.mk "L1" "A" "B" None None).
    assert (E1 : Spec.step "node, A, 0, 0" s0 = (Ok tt, Spec.add_node A s0)).
    { rewrite step_kind.
      change (Spec.line_kind "node, A, 0, 0") with Spec.KNode. cbv iota.
      apply importNode_new with (kw := "node"%string) (sx := "0"%string)
                                (sy := "0"%string) (rest := []); auto. }
    assert (E2 : Spec.step "node, B, 3, 4" (Spec.add_node A s0)
                 = (Ok tt, Spec.add_node Bn (Spec.add_node A s0))).
    { rewrite step_kind.
      change (Spec.line_kind "node, B, 3, 4") with Spec.KNode. cbv iota.
      apply importNode_new with (kw := "node"%string) (sx := "3"%string)
                                (sy := "4"%string) (rest := []); auto. }
    assert (E3 : Spec.step "link L1, A, B" (Spec.add_node Bn (Spec.add_node A s0))
                 = (Ok tt, Spec.add_link L (Spec.add_node Bn (Spec.add_node A s0)))).
    { rewrite step_kind.
      change (Spec.line_kind "link L1, A, B") with Spec.KLink. cbv iota.
      rewrite (importLink_fields _ _ "link" "L1" "A" "B" []); reflexivity. }
    simpl for_each. unfold bind at 1. rewrite E1.
    unfold bind at 1. rewrite E2. unfold bind at 1. rewrite E3.
    unfold ret. cbv iota beta.
    set (s3 := Spec.add_link L _).
    unfold Spec.links_of at 1. rewrite finish_truss.
    destruct (calcLink_resolved s3 L A Bn 5%float) as [angle Hc];
      [reflexivity | reflexivity | |].
    { apply mag_axis with (sx := 9%float) (sy := 16%float) (sz := 0%float);
        assumption. }
    exists angle. simpl TrussModel.links.
    change (Spec.links_of s3) with [L]. simpl.
    destruct (TrussController.calcLink s3 L) as [[[]|e] l']; simpl in *;
      rewrite Hc; reflexivity.
  - intros s l a b len Ha Hb Hm.
    destruct (calcLink_resolved s l a b len Ha Hb Hm) as [angle ->].
    reflexivity.
Qed.

End ImportFacts.

(* ================================================================= *)
(** ** The theorems at the reference runtime *)

(** [normalize] on (3, 4, 0), whose magnitude is 5. *)
Lemma normalize_3_4_0 :
  @Position.mag Ref.builtins (Position.mk 3 4 0) = Ok 5%float /\
  (((5 <=? 0)%float = true ->
    @Position.normalize Ref.builtins (Position.mk 3 4 0)
    = (Ok tt, Position.mk 3 4 0)) /\
   ((5 <=? 0)%float = false ->
    @Position.normalize Ref.builtins (Position.mk 3 4 0)
    = (Ok tt, Position.mk (3 / 5) (4 / 5) (0 / 5))) /\
   ((0 <? 5)%float = true ->
    @Position.normalize Ref.builtins (Position.mk 3 4 0)
    = (Ok tt, Position.mk (3 / 5) (4 / 5) (0 / 5))) /\
   fst (@Position.normalize Ref.builtins (Position.mk 3 4 0)) = Ok tt).
Proof.
  split; [reflexivity|].
  apply (@normalize_never_divides_by_zero Ref.builtins (Position.mk 3 4 0) 5).
  reflexivity.
Defined.

(** The angles of the four unit vectors along the axes. *)
Lemma getAngleRad_axes :
  @Position.getAngleRad Ref.builtins (Position.mk 1 0 0) = Ok 0%float /\
  @Position.getAngleRad Ref.builtins (Position.mk 0 1 0)
  = Ok (PyNum.pi / 2)%float /\
  @Position.getAngleRad Ref.builtins (Position.mk (-1) 0 0) = Ok PyNum.pi /\
  @Position.getAngleRad Ref.builtins (Position.mk 0 (-1) 0)
  = Ok (3 * PyNum.pi / 2)%float.
Proof.
  apply (proj2 (@getAngleRad_by_quadrant Ref.builtins)); reflexivity.
Defined.

(** The report of a model with links of lengths 5, 10 and 7. *)
Lemma longest_of_three_links :
  TrussModel.links Ref.three_links <> [] /\
  Spec.material_set (TrussModel.material Ref.three_links) /\
  (forall l, In l (TrussModel.links Ref.three_links) -> Spec.derived l) /\
  exists before r after len view',
    TrussModel.links Ref.three_links = before ++ r :: after /\
    (forall l, In l before -> ~ Spec.at_least_as_long l r) /\
    (forall l, In l after -> ~ Spec.longer l r) /\
    ((forall l, In l (TrussModel.links Ref.three_links) -> Spec.measured l) ->
     (forall l, In l before -> Spec.shorter l r) /\
     (forall l, In l after -> Spec.no_longer l r)) /\
    Link.length r = Some len /\
    @TrussView.displayReport Ref.builtins Ref.sink Ref.three_links Ref.view0
    = (Ok tt, view') /\
    TrussView.le_LongLinkName view' = Link.name r /\
    TrussView.le_LongLinkLength view' = Ref.fmt len /\
    TrussView.le_LongLinkNode1 view' = Link.node1_Name r /\
    TrussView.le_LongLinkNode2 view' = Link.node2_Name r.
Proof.
  assert (H1 : TrussModel.links Ref.three_links <> []) by discriminate.
  assert (H2 : Spec.material_set (TrussModel.material Ref.three_links))
    by (do 4 eexists; reflexivity).
  assert (H3 : forall l, In l (TrussModel.links Ref.three_links) -> Spec.derived l)
    by (intros l [<-|[<-|[<-|[]]]]; split; eexists; reflexivity).
  split; [exact H1|]. split; [exact H2|]. split; [exact H3|].
  exact (proj1 (@displayReport_longest_link Ref.builtins Ref.sink)
           Ref.three_links Ref.view0 H1 H2 H3).
Defined.

(** The import of the 3-4-5 file. *)
Lemma import_3_4_5_run :
  exists angle,
    Spec.links_of
      (snd (@TrussController.ImportFromFile Ref.builtins Ref.sink
              ["node, A, 0, 0"; "node, B, 3, 4"; "link L1, A, B"]%string
              Ref.controller0))
    = [Link.mk "L1" "A" "B" (Some 5%float) angle].
Proof.
  apply (@import_3_4_5_triangle Ref.builtins Ref.sink Ref.controller0);
    reflexivity.
Defined.

(** A file whose link line comes before the two node lines it names. *)
Lemma link_before_its_nodes :
  let line := "link L1, A, B"%string in
  let post := ["node, A, 0, 0"; "node, B, 3, 4"]%string in
  let self1 := snd (@TrussController.resetModel Ref.sink Ref.controller0) in
  Spec.declares_link line "L1" "A" "B" /\
  @TrussController.scanLine Ref.builtins Ref.sink (line :: post) 0 self1
  = (Ok tt, self1) /\
  @TrussController.ImportFromFile Ref.builtins Ref.sink (line :: post)
    Ref.controller0
  = @TrussController.ImportFromFile Ref.builtins Ref.sink post
      Ref.controller0 /\
  ((forall l n1 n2, In l post -> ~ Spec.declares_link l "L1" n1 n2) ->
   forall L,
     In L (Spec.links_of
             (snd (@TrussController.ImportFromFile Ref.builtins Ref.sink
                     (line :: post) Ref.controller0))) ->
     Link.name L <> "L1"%string).
Proof.
  cbv zeta.
  assert (Hd : Spec.declares_link "link L1, A, B" "L1" "A" "B")
    by (split; [reflexivity | exists "link"%string, []; reflexivity]).
  split; [exact Hd|].
  apply (@dangling_link_line_is_dropped Ref.builtins Ref.sink []
           "link L1, A, B" ["node, A, 0, 0"; "node, B, 3, 4"]%string
           "L1" "A" "B" Ref.controller0
           (snd (@TrussController.resetModel Ref.sink Ref.controller0))).
  - reflexivity.
  - exact Hd.
  - left. reflexivity.
Defined.

(** A file that gives node A twice, at (0, 0) and then at (3, 4). *)
Lemma node_given_twice :
  filter (Node.named "A")
    (Spec.nodes_of
       (snd (@TrussController.ImportFromFile Ref.builtins Ref.sink
               ["node, A, 0, 0"; "node, A, 3, 4"]%string
               Ref.controller0)))
  = [Node.mk (Some "A"%string) (Position.mk 0 0 0)] /\
  (forall line' : string,
     Spec.declares_node line' "A" ->
     forall s : TrussController.t,
       TrussController.hasNode "A" s = true ->
       @Spec.step Ref.builtins Ref.sink line' s = (Ok tt, s)).
Proof.
  apply (@first_node_line_wins Ref.builtins Ref.sink [] "node, A, 0, 0"
           ["node, A, 3, 4"]%string "node" "A" "0" "0" [] 0%float 0%float
           Ref.controller0
           (snd (@TrussController.resetModel Ref.sink Ref.controller0)));
    try reflexivity.
  intros l [].
Defined.

(* ================================================================= *)
(** ** More on the import: invariants of the model *)

Lemma NoDup_snoc {A} (l : list A) (a : A) :
  NoDup l -> ~ In a l -> NoDup (l ++ [a]).
Proof.
  induction l as [|b l IH]; simpl; intros Hl Ha.
  - constructor; [intros [] | constructor].
  - inversion Hl as [|? ? Hb Hl']; subst. constructor.
    + intros Hin. apply in_app_or in Hin. destruct Hin as [Hin|[->|[]]]; tauto.
    + apply IH; tauto.
Qed.

Section ModelInvariants.
Context `{B : Builtins} `{K : SceneSink}.

Ltac unfold_m :=
  unfold TrussController.importTitle, TrussController.importMaterial,
    TrussController.importSF, TrussController.importLink,
    TrussController.importNode, TrussController.addNode,
    TrussController.addLink, TrussController.on_material,
    TrussController.on_truss, TrussController.float_field,
    TrussController.name_field, bind, lift, get, modify, ret, rbind in *.

Ltac case_matches :=
  repeat (simpl;
          match goal with
          | |- context [match ?x with _ => _ end] => destruct x eqn:?
          end);
  simpl.

Ltac open_importer line :=
  unfold TrussController.importNode, TrussController.importLink,
    TrussController.importTitle, TrussController.importMaterial,
    TrussController.importSF;
  unfold bind at 1; unfold lift at 1;
  change (PyStr.index [line] 0) with (@Ok string line); cbv iota;
  try change (map PyStr.strip (PyStr.split_on "," (PyStr.strip line)))
    with (Spec.node_fields line).

Lemma hasNode_nodes_of (name : string) (s : TrussController.t) :
  TrussController.hasNode name s = existsb (Node.named name) (Spec.nodes_of s).
Proof. reflexivity. Qed.

Lemma hasNode_name_absent (name : string) (s : TrussController.t) :
  TrussController.hasNode name s = false ->
  ~ In (Some name) (map Node.name (Spec.nodes_of s)).
Proof.
  rewrite hasNode_nodes_of.
  induction (Spec.nodes_of s) as [|n ns IH]; simpl; [tauto|].
  intros H. apply orb_false_elim in H. destruct H as [Hn Hns].
  intros [E|Hin]; [|exact (IH Hns Hin)].
  unfold Node.named in Hn. rewrite E, String.eqb_refl in Hn. discriminate.
Qed.

Lemma scan_node_names_distinct (lines : list string) :
  forall s : TrussController.t,
    NoDup (map Node.name (Spec.nodes_of s)) ->
    NoDup (map Node.name (Spec.nodes_of (snd (for_each lines Spec.step s)))).
Proof.
  induction lines as [|line rest IH]; intros s Hs; [exact Hs|].
  rewrite for_each_cons_snd.
  assert (Hstep : NoDup (map Node.name
                           (Spec.nodes_of (snd (Spec.step line s))))).
  { destruct (step_nodes line s) as [E | (nm & p & _ & Hn & E)].
    - rewrite E. exact Hs.
    - rewrite E. unfold Spec.add_node, Spec.nodes_of at 1. simpl.
      rewrite map_app. simpl. apply NoDup_snoc; [exact Hs|].
      apply hasNode_name_absent, Hn. }
  destruct (fst (Spec.step line s)); auto.
Qed.

(** X1: after an import, from any controller and on any data, also when it
    raised, no two nodes of the model have the same name. *)
Theorem import_node_names_distinct
    (data : list string) (self : TrussController.t) :
  NoDup (map Node.name
           (Spec.nodes_of (snd (TrussController.ImportFromFile data self)))).
Proof.
  destruct (import_final data self) as [-> _].
  apply scan_node_names_distinct. simpl. constructor.
Qed.

Lemma link_name_absent (name : string) (ls : list Link.t) :
  existsb (fun l => String.eqb (Link.name l) name) ls = false ->
  ~ In name (map Link.name ls).
Proof.
  induction ls as [|l ls IH]; simpl; [tauto|].
  intros H. apply orb_false_elim in H. destruct H as [Hl Hls].
  intros [E|Hin]; [|exact (IH Hls Hin)].
  rewrite E, String.eqb_refl in Hl. discriminate.
Qed.

(** What a link line can do: nothing, raise and change nothing, or append a
    link of a new name between two nodes the model has. *)
Lemma step_links_fresh (line : string) (s : TrussController.t) :
  Spec.links_of (snd (Spec.step line s)) = Spec.links_of s \/
  exists name node1 node2,
    Spec.declares_link line name node1 node2 /\
    TrussController.hasNode node1 s = true /\
    TrussController.hasNode node2 s = true /\
    existsb (fun l => String.eqb (Link.name l) name) (Spec.links_of s) = false /\
    Spec.step line s =
    (Ok tt, Spec.add_link (Link.mk name node1 node2 None None) s).
Proof.
  destruct (step_links line s) as [E | (nm & n1 & n2 & Hd & H1 & H2 & E)];
    [left; exact E|].
  destruct (existsb (fun l => String.eqb (Link.name l) nm) (Spec.links_of s))
    eqn:Hex.
  - left. destruct Hd as [Hk (kw & rest & Hf)].
    rewrite step_kind, Hk, (importLink_fields _ _ _ _ _ _ _ Hf).
    rewrite H1, H2, Hex. reflexivity.
  - right. exists nm, n1, n2. auto.
Qed.

Lemma scan_link_names_distinct (lines : list string) :
  forall s : TrussController.t,
    NoDup (map Link.name (Spec.links_of s)) ->
    NoDup (map Link.name (Spec.links_of (snd (for_each lines Spec.step s)))).
Proof.
  induction lines as [|line rest IH]; intros s Hs; [exact Hs|].
  rewrite for_each_cons_snd.
  assert (Hstep : NoDup (map Link.name
                           (Spec.links_of (snd (Spec.step line s))))).
  { destruct (step_links_fresh line s)
      as [E | (nm & n1 & n2 & _ & _ & _ & Hex & E)].
    - rewrite E. exact Hs.
    - rewrite E. unfold Spec.add_link, Spec.links_of at 1. simpl.
      rewrite map_app. simpl. apply NoDup_snoc; [exact Hs|].
      apply link_name_absent, Hex. }
  destruct (fst (Spec.step line s)); auto.
Qed.

Lemma same_ends_names (ls ls' : list Link.t) :
  Forall2 Spec.same_ends ls ls' -> map Link.name ls' = map Link.name ls.
Proof.
  induction 1 as [|a b la lb (E & _) _ IH]; simpl; [reflexivity|].
  rewrite E, IH. reflexivity.
Qed.

(** X2: after an import, whether it returned or raised, no two links of the
    model have the same name. *)
Theorem import_link_names_distinct
    (data : list string) (self : TrussController.t) :
  NoDup (map Link.name
           (Spec.links_of (snd (TrussController.ImportFromFile data self)))).
Proof.
  destruct (import_final data self) as [_ HF].
  rewrite (same_ends_names _ _ HF).
  apply scan_link_names_distinct. simpl. constructor.
Qed.

Lemma step_keeps_resolved (line : string) (s : TrussController.t) :
  Inv.resolved s -> Inv.resolved (snd (Spec.step line s)).
Proof.
  intros Hs.
  destruct (step_links line s) as [El | (nm & n1 & n2 & _ & H1 & H2 & E)].
  - destruct (step_nodes line s) as [En | (nm & p & _ & _ & E)].
    + intros L HL. rewrite El in HL. rewrite !hasNode_nodes_of, En.
      rewrite <- !hasNode_nodes_of. exact (Hs L HL).
    + rewrite E. simpl. intros L HL.
      change (Spec.links_of (Spec.add_node (Node.mk (Some nm) p) s))
        with (Spec.links_of s) in HL.
      destruct (Hs L HL) as [A1 A2].
      rewrite !hasNode_nodes_of in *. unfold Spec.add_node, Spec.nodes_of at 1 3.
      simpl. fold (Spec.nodes_of s). rewrite !existsb_app, A1, A2. auto.
  - rewrite E. simpl. intros L HL.
    unfold Spec.add_link, Spec.links_of in HL. simpl in HL.
    apply in_app_or in HL.
    change (TrussController.hasNode (Link.node1_Name L)
              (Spec.add_link (Link.mk nm n1 n2 None None) s))
      with (TrussController.hasNode (Link.node1_Name L) s).
    change (TrussController.hasNode (Link.node2_Name L)
              (Spec.add_link (Link.mk nm n1 n2 None None) s))
      with (TrussController.hasNode (Link.node2_Name L) s).
    destruct HL as [HL|[<-|[]]]; [exact (Hs L HL)|]. simpl. auto.
Qed.

Lemma scan_keeps_resolved (lines : list string) :
  forall s : TrussController.t,
    Inv.resolved s -> Inv.resolved (snd (for_each lines Spec.step s)).
Proof.
  induction lines as [|line rest IH]; intros s Hs; [exact Hs|].
  rewrite for_each_cons_snd.
  pose proof (step_keeps_resolved line s Hs) as Hstep.
  destruct (fst (Spec.step line s)); auto.
Qed.

Lemma same_ends_preimage (ls ls' : list Link.t) (L : Link.t) :
  Forall2 Spec.same_ends ls ls' -> In L ls' ->
  exists L0, In L0 ls /\ Spec.same_ends L0 L.
Proof.
  induction 1 as [|a b la lb Hab _ IH]; intros HL; [destruct HL|].
  destruct HL as [<-|HL].
  - exists a. split; [left; reflexivity | exact Hab].
  - destruct (IH HL) as (L0 & HIn & Hs). exists L0. split; [right|]; auto.
Qed.

(** X3: after an import, whether it returned or raised, every link of the
    model runs between two nodes the model has. *)
Theorem import_links_have_their_nodes
    (data : list string) (self : TrussController.t) :
  Inv.resolved (snd (TrussController.ImportFromFile data self)).
Proof.
  destruct (import_final data self) as [Hn HF]. intros L HL.
  destruct (same_ends_preimage _ _ L HF HL) as (L0 & HIn & (_ & E1 & E2)).
  rewrite !hasNode_nodes_of, Hn, <- !hasNode_nodes_of, E1, E2.
  apply (scan_keeps_resolved data); [|exact HIn].
  intros X [].
Qed.

(** X4: when the lines before it are scanned without a raise and a line
    raises, the import raises the same exception and leaves the controller
    as that line left it: the lines after it are not read, and neither the
    geometry nor the report is run. *)
Theorem import_stops_at_the_first_raise
    (pre : list string) (line : string) (post : list string) (e : exn)
    (self s1 s2 : TrussController.t) :
  TrussController.scan pre (snd (TrussController.resetModel self))
  = (Ok tt, s1) ->
  TrussController.scanLine (pre ++ line :: post) (List.length pre) s1
  = (Raise e, s2) ->
  TrussController.ImportFromFile (pre ++ line :: post) self = (Raise e, s2).
Proof.
  intros Hpre Hline.
  rewrite resetModel_cleared, scan_lines in Hpre. simpl in Hpre.
  rewrite (scanLine_line _ _ line) in Hline
    by (rewrite nth_error_app2, Nat.sub_diag by lia; reflexivity).
  rewrite ImportFromFile_unfold. unfold bind at 1.
  rewrite for_each_app. unfold bind at 1. rewrite Hpre.
  simpl. unfold bind at 1. rewrite Hline. reflexivity.
Qed.

Lemma step_uts (line : string) (s : TrussController.t) :
  Spec.line_kind line <> Spec.KMaterial ->
  Inv.uts_of (snd (Spec.step line s)) = Inv.uts_of s.
Proof.
  intros Hk. rewrite step_kind. unfold Inv.uts_of.
  destruct (Spec.line_kind line); try congruence; try reflexivity.
  - unfold_m. case_matches; reflexivity.
  - destruct (importLink_cases line s)
      as [-> | (kw & nm & n1 & n2 & rest & _ & _ & _ & ->)]; reflexivity.
  - destruct (importNode_cases line s)
      as [-> | (kw & nm & sx & sy & rest & x & y & _ & _ & _ & _ & ->)];
      reflexivity.
  - unfold_m. case_matches; reflexivity.
Qed.

Lemma scan_uts (lines : list string) :
  forall s : TrussController.t,
    (forall l, In l lines -> Spec.line_kind l <> Spec.KMaterial) ->
    Inv.uts_of (snd (for_each lines Spec.step s)) = Inv.uts_of s.
Proof.
  induction lines as [|line rest IH]; intros s Hl; [reflexivity|].
  rewrite for_each_cons_snd.
  assert (Hstep : Inv.uts_of (snd (Spec.step line s)) = Inv.uts_of s)
    by (apply step_uts, Hl; left; reflexivity).
  destruct (fst (Spec.step line s)); [|exact Hstep].
  rewrite IH; [exact Hstep|]. intros l Hin. apply Hl. right. exact Hin.
Qed.

Lemma report_header_inv (truss : TrussModel.t) (st : string) :
  TrussView.report_header truss = Ok st ->
  Spec.material_set (TrussModel.material truss).
Proof.
  unfold TrussView.report_header, Spec.material_set.
  destruct (TrussModel.material truss) as [[u|] [y|] [e|] [f|]]; simpl;
    try discriminate.
  intros _. exists u, y, e, f. reflexivity.
Qed.

Lemma report_header_raise (truss : TrussModel.t) (e : exn) :
  TrussView.report_header truss = Raise e -> e = TypeError.
Proof.
  unfold TrussView.report_header.
  destruct (TrussModel.material truss) as [[u|] [y|] [m|] [f|]]; simpl;
    congruence.
Qed.

Lemma report_row_inv (l : Link.t) (acc acc' : option Link.t * string) :
  TrussView.report_row l acc = Ok acc' ->
  Spec.derived l /\ fst acc' <> None.
Proof.
  unfold TrussView.report_row, Spec.derived. destruct acc as [longest st].
  destruct (Link.length l) as [u|], (Link.angleRad l) as [a|];
    destruct longest as [lg|]; simpl;
    try destruct (Link.length lg) as [v|]; simpl; try discriminate;
    try destruct (v <? u)%float; simpl;
    intros H; injection H as <-; simpl; (split; [eauto | discriminate]).
Qed.

Lemma report_row_raise (l : Link.t) (acc : option Link.t * string) (e : exn) :
  TrussView.report_row l acc = Raise e -> e = TypeError.
Proof.
  unfold TrussView.report_row. destruct acc as [longest st].
  destruct (Link.length l) as [u|], (Link.angleRad l) as [a|];
    destruct longest as [lg|]; simpl;
    try destruct (Link.length lg) as [v|]; simpl; congruence.
Qed.

Lemma report_links_inv (ls : list Link.t) :
  forall acc acc' : option Link.t * string,
    TrussView.report_links ls acc = Ok acc' ->
    (forall l, In l ls -> Spec.derived l) /\
    (fst acc' = None -> ls = []).
Proof.
  induction ls as [|l rest IH]; intros acc acc' H.
  - split; [intros l [] | reflexivity].
  - rewrite report_links_cons in H.
    destruct (TrussView.report_row l acc) as [acc1|e] eqn:Hrow;
      [|discriminate].
    simpl in H. destruct (report_row_inv _ _ _ Hrow) as [Dl Hsome].
    destruct (IH _ _ H) as [Drest Hnone]. split.
    + intros x [<-|Hx]; auto.
    + intros Hn. exfalso. specialize (Hnone Hn). subst rest.
      simpl in H. injection H as <-. exact (Hsome Hn).
Qed.

Lemma report_links_raise (ls : list Link.t) :
  forall (acc : option Link.t * string) (e : exn),
    TrussView.report_links ls acc = Raise e -> e = TypeError.
Proof.
  induction ls as [|l rest IH]; intros acc e H; [discriminate|].
  rewrite report_links_cons in H.
  destruct (TrussView.report_row l acc) as [acc1|e1] eqn:Hrow; simpl in H.
  - exact (IH _ _ H).
  - injection H as <-. exact (report_row_raise _ _ _ Hrow).
Qed.

Lemma displayReport_ok_inv (truss : TrussModel.t) (view : TrussView.t) :
  fst (TrussView.displayReport truss view) = Ok tt ->
  Spec.material_set (TrussModel.material truss) /\
  TrussModel.links truss <> [] /\
  (forall l, In l (TrussModel.links truss) -> Spec.derived l).
Proof.
  unfold TrussView.displayReport, bind, lift, modify.
  destruct (TrussView.report_header truss) as [st0|e] eqn:Hh;
    [|discriminate].
  destruct (TrussView.report_links _ _) as [[longest st]|e] eqn:Hl;
    [|discriminate].
  destruct (report_links_inv _ _ _ Hl) as [Hd Hnone].
  destruct longest as [r|]; simpl; [|discriminate].
  intros _. split; [exact (report_header_inv _ _ Hh)|]. split; [|exact Hd].
  intros E. rewrite E in Hl. simpl in Hl. discriminate.
Qed.

(** What a whole import leaves when every stage returned. *)
Lemma import_ok_stages (data : list string) (self : TrussController.t) :
  fst (TrussController.ImportFromFile data self) = Ok tt ->
  exists s1 s2,
    for_each data Spec.step (TrussController.set_truss Spec.cleared self)
    = (Ok tt, s1) /\
    TrussController.calcLinkVals s1 = (Ok tt, s2) /\
    fst (TrussController.displayReport s2) = Ok tt /\
    TrussController.truss (snd (TrussController.ImportFromFile data self))
    = TrussController.truss s2.
Proof.
  rewrite ImportFromFile_unfold. unfold bind.
  destruct (for_each data Spec.step _) as [[[]|e] s1]; [|discriminate].
  unfold Spec.finish, bind.
  destruct (TrussController.calcLinkVals s1) as [[[]|e] s2] eqn:Hc;
    [|discriminate].
  destruct (report_and_draw_truss s2) as [Hr _].
  destruct (TrussController.displayReport s2) as [[[]|e] s3] eqn:Hrep;
    [|discriminate].
  destruct (report_and_draw_truss s3) as [_ Hd].
  destruct (TrussController.drawTruss s3) as [r s4].
  simpl in *. intros _. exists s1, s2.
  rewrite Hrep. repeat split; try assumption; congruence.
Qed.

(** X5: an import returns normally only if the data has a material line
    and a link line; the model it leaves then has its material set, at least
    one link, and length and angle set on every link. *)
Theorem import_returns_only_with_material_and_links
    (data : list string) (self : TrussController.t) :
  fst (TrussController.ImportFromFile data self) = Ok tt ->
  let final := TrussController.truss
                 (snd (TrussController.ImportFromFile data self)) in
  (exists line, In line data /\ Spec.line_kind line = Spec.KMaterial) /\
  (exists line name node1 node2,
     In line data /\ Spec.declares_link line name node1 node2) /\
  Spec.material_set (TrussModel.material final) /\
  TrussModel.links final <> [] /\
  (forall l, In l (TrussModel.links final) -> Spec.derived l).
Proof.
  intros Hok. cbv zeta.
  destruct (import_ok_stages data self Hok) as (s1 & s2 & Hscan & Hcalc & Hrep & Hfin).
  assert (Hinv : Spec.material_set (TrussModel.material (TrussController.truss s2)) /\
                 TrussModel.links (TrussController.truss s2) <> [] /\
                 (forall l, In l (TrussModel.links (TrussController.truss s2)) ->
                            Spec.derived l)).
  { apply (displayReport_ok_inv _ (TrussController.view s2)).
    unfold TrussController.displayReport in Hrep.
    destruct (TrussView.displayReport _ _). exact Hrep. }
  destruct Hinv as (Hmat & Hne & Hder). rewrite Hfin.
  split; [|split; [|auto]].
  - destruct (existsb (fun l => match Spec.line_kind l with
                                | Spec.KMaterial => true | _ => false end)
                data) eqn:Hex.
    + apply existsb_exists in Hex. destruct Hex as (l & Hin & Hk).
      exists l. split; [exact Hin|]. destruct (Spec.line_kind l); congruence.
    + exfalso.
      assert (Hno : forall l, In l data -> Spec.line_kind l <> Spec.KMaterial).
      { intros l Hin Hk.
        assert (Hex' : existsb (fun l => match Spec.line_kind l with
                                | Spec.KMaterial => true | _ => false end)
                data = true)
          by (apply existsb_exists; exists l; rewrite Hk; auto).
        congruence. }
      pose proof (scan_uts data (TrussController.set_truss Spec.cleared self) Hno)
        as Hu.
      rewrite Hscan in Hu. simpl in Hu.
      rewrite calcLinkVals_truss in Hcalc. injection Hcalc as _ <-.
      destruct Hmat as (u & y & m & f & Hm). unfold Inv.uts_of in Hu.
      simpl in Hm. rewrite Hm in Hu. discriminate.
  - destruct (TrussModel.links (TrussController.truss s2)) as [|L ls] eqn:HL;
      [congruence|].
    destruct (import_links_declared data self L) as (line & Hin & Hd).
    { unfold Spec.links_of. rewrite Hfin, HL. left. reflexivity. }
    exists line, (Link.name L), (Link.node1_Name L), (Link.node2_Name L). auto.
Qed.

Lemma existsb_find {A} (f : A -> bool) (l : list A) :
  existsb f l = true -> exists a, List.find f l = Some a.
Proof.
  induction l as [|a l IH]; simpl; [discriminate|].
  destruct (f a); [eauto | exact IH].
Qed.

Lemma calcLink_ok_derived (s : TrussController.t) (l : Link.t) :
  TrussController.hasNode (Link.node1_Name l) s = true ->
  TrussController.hasNode (Link.node2_Name l) s = true ->
  fst (TrussController.calcLink s l) = Ok tt ->
  Spec.derived (snd (TrussController.calcLink s l)).
Proof.
  intros H1 H2.
  destruct (existsb_find _ _ H1) as [a Ha].
  destruct (existsb_find _ _ H2) as [b Hb].
  unfold TrussController.calcLink, TrussController.getNode, bind, get, lift,
    modify.
  rewrite H1, H2, Ha, Hb.
  destruct (Position.mag _) as [len|e]; [|discriminate].
  destruct (Position.getAngleRad _) as [ang|e]; [|discriminate].
  intros _. split; eexists; reflexivity.
Qed.

Lemma for_inplace_ok {A} (body : M A unit) (P Q : A -> Prop) :
  (forall a, P a -> fst (body a) = Ok tt -> Q (snd (body a))) ->
  forall xs,
    (forall a, In a xs -> P a) ->
    fst (TrussController.for_inplace body xs) = Ok tt ->
    forall a', In a' (snd (TrussController.for_inplace body xs)) -> Q a'.
Proof.
  intros Hb. induction xs as [|a xs IH]; simpl; intros HP Hok a' Hin;
    [destruct Hin|].
  pose proof (Hb a (HP a (or_introl eq_refl))) as Ha.
  destruct (body a) as [[[]|e] a1]; [|discriminate].
  destruct (TrussController.for_inplace body xs) as [r xs'] eqn:E.
  simpl in *. destruct Hin as [<-|Hin]; [auto|].
  apply IH; auto.
Qed.

(** X6: when the scan and then the geometry step return, every link has
    its length and its angle set; if moreover the material is set and there
    is a link, the report returns as well. *)
Theorem geometry_then_report
    (data : list string) (self s1 s2 : TrussController.t) :
  TrussController.scan data (snd (TrussController.resetModel self))
  = (Ok tt, s1) ->
  TrussController.calcLinkVals s1 = (Ok tt, s2) ->
  (forall l, In l (Spec.links_of s2) -> Spec.derived l) /\
  (Spec.material_set (TrussModel.material (TrussController.truss s2)) ->
   Spec.links_of s2 <> [] ->
   fst (TrussController.displayReport s2) = Ok tt).
Proof.
  intros Hscan Hcalc.
  rewrite resetModel_cleared, scan_lines in Hscan. simpl in Hscan.
  assert (Hres : Inv.resolved s1).
  { pose proof (scan_keeps_resolved data
                  (TrussController.set_truss Spec.cleared self)) as H.
    rewrite Hscan in H. apply H. intros L []. }
  assert (Hder : forall l, In l (Spec.links_of s2) -> Spec.derived l).
  { rewrite calcLinkVals_truss in Hcalc. injection Hcalc as Hok <-.
    unfold Spec.links_of at 1. simpl.
    apply (for_inplace_ok (TrussController.calcLink s1)
             (fun l => TrussController.hasNode (Link.node1_Name l) s1 = true /\
                       TrussController.hasNode (Link.node2_Name l) s1 = true)
             Spec.derived).
    - intros l [H1 H2]. apply calcLink_ok_derived; assumption.
    - exact Hres.
    - exact Hok. }
  split; [exact Hder|].
  intros Hmat Hne. unfold TrussController.displayReport.
  destruct (report_header_ok _ Hmat) as [st0 Hh].
  unfold Spec.links_of in Hne, Hder.
  destruct (TrussModel.links (TrussController.truss s2)) as [|l0 rest] eqn:HL;
    [congruence|].
  assert (D0 : Spec.derived l0) by (apply Hder; left; reflexivity).
  destruct (report_row_first l0 st0 D0) as [st1 Hrow].
  assert (Hrest : forall x, In x rest -> Spec.derived x)
    by (intros x Hx; apply Hder; right; exact Hx).
  assert (Hnil : forall (P : Link.t -> Prop) x, In x [] -> P x)
    by (intros P x []).
  destruct (report_links_longest rest [] l0 [] st1 D0 Hrest
              (Hnil _) (Hnil _) (Hnil _) (Hnil _)) as
    (before & r & after & st & H1 & H2 & _ & _).
  simpl in H2.
  assert (Dr : Spec.derived r) by (apply Hder; rewrite H2; apply in_elt).
  destruct Dr as [[len Hlen] _].
  rewrite (displayReport_with_longest _ (TrussController.view s2) st0 st r len);
    auto.
  rewrite HL, report_links_cons, Hrow. exact H1.
Qed.

(** X7: a node line with fewer than four comma-separated fields raises
    nothing and changes nothing. *)
Theorem short_node_line_is_skipped (line : string) (s : TrussController.t) :
  Spec.line_kind line = Spec.KNode ->
  List.length (Spec.node_fields line) < 4 ->
  Spec.step line s = (Ok tt, s).
Proof.
  intros Hk Hlen. rewrite step_kind, Hk. open_importer line.
  destruct (Spec.node_fields line) as [|a [|b [|c [|d rest]]]];
    simpl in Hlen; try lia; reflexivity.
Qed.

(** X8: a link line with fewer than four whitespace-separated tokens
    raises [IndexError] and changes nothing. *)
Theorem short_link_line_raises (line : string) (s : TrussController.t) :
  Spec.line_kind line = Spec.KLink ->
  List.length (Spec.link_fields line) < 4 ->
  Spec.step line s = (Raise IndexError, s).
Proof.
  intros Hk Hlen. rewrite step_kind, Hk. open_importer line.
  unfold Spec.link_fields in Hlen. rewrite length_map in Hlen.
  destruct (PyStr.split (PyStr.strip line)) as [|a [|b [|c [|d rest]]]];
    simpl in Hlen; try lia; reflexivity.
Qed.

(** X9: a title line with fewer than four tokens raises [ValueError] and
    changes nothing; with four or more, the title becomes the second, third
    and fourth token joined by single spaces with the quotes at both ends
    stripped, further tokens are dropped and nothing else changes. *)
Theorem title_line_takes_three_words (line : string) (s : TrussController.t) :
  Spec.line_kind line = Spec.KTitle ->
  (List.length (PyStr.split (PyStr.strip line)) < 4 ->
   Spec.step line s = (Raise ValueError, s)) /\
  (forall kw a b c rest,
     PyStr.split (PyStr.strip line) = kw :: a :: b :: c :: rest ->
     Spec.step line s =
     (Ok tt,
      TrussController.set_truss
        (TrussModel.set_title
           (Some (PyStr.strip_char "'" (a ++ " " ++ b ++ " " ++ c)%string))
           (TrussController.truss s)) s)).
Proof.
  intros Hk. rewrite step_kind, Hk. split.
  - intros Hlen. open_importer line.
    destruct (PyStr.split (PyStr.strip line)) as [|a [|b [|c [|d rest]]]];
      simpl in Hlen; try lia; reflexivity.
  - intros kw a b c rest Hf. open_importer line. rewrite Hf. reflexivity.
Qed.

(** X10: a material line writes each value as soon as it is parsed: if the
    first value does not parse nothing changes; if it parses, the ultimate
    strength is set even when the line then lacks the second value
    ([IndexError]) or the second value does not parse. *)
Theorem material_line_writes_as_it_parses
    (line : string) (s : TrussController.t) (kw a : string)
    (rest : list string) :
  Spec.line_kind line = Spec.KMaterial ->
  PyStr.split (PyStr.strip line) = kw :: a :: rest ->
  match float_of_string (PyStr.strip_char "," a) with
  | Raise e => Spec.step line s = (Raise e, s)
  | Ok u =>
      let s1 := TrussController.set_truss
                  (TrussModel.set_material
                     (Material.set_uts (Some u)
                        (TrussModel.material (TrussController.truss s)))
                     (TrussController.truss s)) s in
      match rest with
      | [] => Spec.step line s = (Raise IndexError, s1)
      | b :: _ =>
          forall e, float_of_string (PyStr.strip_char "," b) = Raise e ->
                    Spec.step line s = (Raise e, s1)
      end
  end.
Proof.
  intros Hk Hf. rewrite step_kind, Hk.
  destruct (float_of_string (PyStr.strip_char "," a)) as [u|e] eqn:Ha.
  - cbv zeta. destruct rest as [|b rest'].
    + open_importer line. rewrite Hf. unfold_m. simpl. rewrite Ha. reflexivity.
    + intros e Hb. open_importer line. rewrite Hf. unfold_m. simpl.
      rewrite Ha. simpl. rewrite Hb. reflexivity.
  - open_importer line. rewrite Hf. unfold_m. simpl. rewrite Ha. reflexivity.
Qed.

(** X11: a line in which "link" occurs, in any case and anywhere, never
    adds a node, also when it is written as a node line: a node whose name
    contains "link" cannot be imported. *)
Theorem line_with_link_never_adds_a_node
    (line : string) (s : TrussController.t) :
  (0 <=? PyStr.find "link" (PyStr.strip (PyStr.lower line)))%Z = true ->
  Spec.nodes_of (snd (Spec.step line s)) = Spec.nodes_of s.
Proof.
  intros Hl.
  assert (Hk : Spec.line_kind line = Spec.KComment \/
               Spec.line_kind line = Spec.KTitle \/
               Spec.line_kind line = Spec.KLink).
  { unfold Spec.line_kind. cbv zeta. rewrite Hl.
    destruct (PyStr.find "#" _ =? 0)%Z; [auto|].
    destruct (0 <=? PyStr.find "title" _)%Z; auto. }
  rewrite step_kind.
  destruct Hk as [-> | [-> | ->]]; [reflexivity | |].
  - destruct (other_importers line s) as ([T _] & _). exact T.
  - destruct (importLink_cases line s)
      as [-> | (kw & nm & n1 & n2 & rest & _ & _ & _ & ->)]; reflexivity.
Qed.

(** X12: a link line whose link name is already the name of a link of the
    model raises nothing and changes nothing, whatever its end nodes. *)
Theorem second_link_of_a_name_is_skipped
    (line : string) (s : TrussController.t) (name node1 node2 : string) :
  Spec.declares_link line name node1 node2 ->
  existsb (fun l => String.eqb (Link.name l) name) (Spec.links_of s) = true ->
  Spec.step line s = (Ok tt, s).
Proof.
  intros [Hk (kw & rest & Hf)] Hex.
  rewrite step_kind, Hk, (importLink_fields _ _ _ _ _ _ _ Hf), Hex.
  simpl. rewrite andb_false_r. reflexivity.
Qed.

(** X13: the geometry step, whether it returns or raises, leaves the view,
    the title, the material and the nodes as they were, and the links keep
    their number, order, names and end nodes. *)
Theorem calcLinkVals_changes_only_lengths_and_angles (s : TrussController.t) :
  let s' := snd (TrussController.calcLinkVals s) in
  TrussController.view s' = TrussController.view s /\
  TrussModel.title (TrussController.truss s')
  = TrussModel.title (TrussController.truss s) /\
  TrussModel.material (TrussController.truss s')
  = TrussModel.material (TrussController.truss s) /\
  Spec.nodes_of s' = Spec.nodes_of s /\
  Forall2 Spec.same_ends (Spec.links_of s) (Spec.links_of s').
Proof.
  cbv zeta. rewrite calcLinkVals_truss. simpl.
  repeat split. apply for_inplace_ends, calcLink_ends.
Qed.

(** X14: the report never changes the scene.  If a material value is unset
    or some link lacks its length or its angle, it raises [TypeError] and
    writes no widget.  The only exceptions it raises are [TypeError] and, for
    a model without links, [AttributeError]. *)
Theorem displayReport_failures (truss : TrussModel.t) (view : TrussView.t) :
  TrussView.scene (snd (TrussView.displayReport truss view))
  = TrussView.scene view /\
  (~ Spec.material_set (TrussModel.material truss) \/
   (exists l, In l (TrussModel.links truss) /\ ~ Spec.derived l) ->
   TrussView.displayReport truss view = (Raise TypeError, view)) /\
  (forall e, fst (TrussView.displayReport truss view) = Raise e ->
             e = TypeError \/
             (e = AttributeError /\ TrussModel.links truss = [])).
Proof.
  unfold TrussView.displayReport, bind, lift, modify.
  destruct (TrussView.report_header truss) as [st0|e0] eqn:Hh.
  - destruct (TrussView.report_links _ _) as [[longest st]|e1] eqn:Hl.
    + destruct (report_links_inv _ _ _ Hl) as [Hd Hnone].
      pose proof (report_header_inv _ _ Hh) as Hmat.
      destruct longest as [r|]; simpl.
      * destruct (PyNum.fmt_2f (Link.length r)) as [sl|e2] eqn:Hf; simpl.
        -- split; [reflexivity|]. split; [|discriminate].
           intros [Hn | (l & Hin & Hn)]; [tauto | exfalso; auto].
        -- split; [reflexivity|]. split.
           ++ intros [Hn | (l & Hin & Hn)]; [tauto | exfalso; auto].
           ++ intros e H. injection H as <-. left.
              unfold PyNum.fmt_2f in Hf.
              destruct (Link.length r); congruence.
      * split; [reflexivity|]. split.
        -- intros [Hn | (l & Hin & Hn)]; [tauto | exfalso; auto].
        -- intros e H. injection H as <-. right. auto.
    + pose proof (report_links_raise _ _ _ Hl) as ->. simpl.
      split; [reflexivity|]. split; [reflexivity|].
      intros e H. injection H as <-. auto.
  - pose proof (report_header_raise _ _ Hh) as ->. simpl.
    split; [reflexivity|]. split; [reflexivity|].
    intros e H. injection H as <-. auto.
Qed.

(** X15: [hasNode] is true exactly when [getNode] returns a node; the node
    returned bears the name and is a node of the model; the model's and the
    controller's [getNode] agree.  After [addNode] of a node named [nm],
    [getNode nm] returns the node it returned before, or the new node if
    there was none, and the lookup of every other name is unchanged. *)
Theorem getNode_finds_what_hasNode_sees
    (name : string) (s : TrussController.t) :
  (TrussController.hasNode name s = true <->
   exists n, TrussController.getNode name s = Some n) /\
  (forall n, TrussController.getNode name s = Some n ->
             Node.name n = Some name /\ In n (Spec.nodes_of s)) /\
  TrussModel.getNode name (TrussController.truss s)
  = TrussController.getNode name s /\
  (forall N nm,
     Node.name N = Some nm ->
     TrussController.getNode nm (snd (TrussController.addNode N s))
     = match TrussController.getNode nm s with
       | Some n => Some n
       | None => Some N
       end /\
     (name <> nm ->
      TrussController.getNode name (snd (TrussController.addNode N s))
      = TrussController.getNode name s)).
Proof.
  unfold TrussController.hasNode, TrussController.getNode, TrussModel.getNode,
    TrussController.addNode, TrussController.on_truss, modify, Spec.nodes_of.
  simpl.
  set (ns := TrussModel.nodes (TrussController.truss s)).
  assert (Hnamed : forall nm n, Node.named nm n = true -> Node.name n = Some nm).
  { intros nm n. unfold Node.named. destruct (Node.name n) as [x|];
      [|discriminate]. intros E. apply String.eqb_eq in E. congruence. }
  repeat split.
  - apply existsb_find.
  - intros [n Hn]. apply find_some in Hn. apply existsb_exists. eauto.
  - apply find_some in H. apply Hnamed, H.
  - apply find_some in H. apply H.
  - clear Hnamed. induction ns as [|a l IH]; simpl.
    + unfold Node.named. rewrite H, String.eqb_refl. reflexivity.
    + destruct (Node.named nm a); [reflexivity | exact IH].
  - intros Hne. induction ns as [|a l IH]; simpl.
    + destruct (Node.named name N) eqn:E; [|reflexivity].
      apply Hnamed in E. congruence.
    + destruct (Node.named name a); [reflexivity | exact IH].
Qed.

End ModelInvariants.

(* ================================================================= *)
(** ** Position and Node: arithmetic and equality *)

Lemma SFadd_comm prec emax a b : SFadd prec emax a b = SFadd prec emax b a.
Proof.
  destruct a as [[|]|[|]| |[|] ma ea], b as [[|]|[|]| |[|] mb eb];
    try reflexivity; unfold SFadd;
    rewrite (Z.min_comm eb ea), Z.add_comm; reflexivity.
Qed.

Lemma SFmul_comm prec emax a b : SFmul prec emax a b = SFmul prec emax b a.
Proof.
  destruct a as [[|]|[|]| |[|] ma ea], b as [[|]|[|]| |[|] mb eb];
    try reflexivity; unfold SFmul;
    rewrite (Pos.mul_comm mb ma), (Z.add_comm eb ea); reflexivity.
Qed.

Lemma float_add_comm (a b : float) : (a + b = b + a)%float.
Proof. apply Prim2SF_inj. rewrite !add_spec. apply SFadd_comm. Qed.

Lemma float_mul_comm (a b : float) : (a * b = b * a)%float.
Proof. apply Prim2SF_inj. rewrite !mul_spec. apply SFmul_comm. Qed.

Lemma SFcompare_eq_eq a b c :
  SFcompare a b = Some Eq -> SFcompare b c = Some Eq ->
  SFcompare a c = Some Eq.
Proof. FloatOrder.by_cases a b c. Qed.

Lemma float_eqb_sym (a b : float) : (a =? b)%float = (b =? a)%float.
Proof.
  destruct (a =? b)%float eqn:E1, (b =? a)%float eqn:E2; try reflexivity.
  - apply FloatOrder.eqb_Eq, FloatOrder.SFcompare_antisym in E1.
    apply FloatOrder.eqb_Eq in E1. congruence.
  - apply FloatOrder.eqb_Eq, FloatOrder.SFcompare_antisym in E2.
    apply FloatOrder.eqb_Eq in E2. congruence.
Qed.

Lemma float_eqb_trans (a b c : float) :
  (a =? b)%float = true -> (b =? c)%float = true -> (a =? c)%float = true.
Proof.
  rewrite !FloatOrder.eqb_Eq. apply SFcompare_eq_eq.
Qed.

Lemma ne_false (a b : float) : PyNum.ne a b = false <-> (a =? b)%float = true.
Proof. unfold PyNum.ne. destruct (a =? b)%float; simpl; split; congruence. Qed.

Lemma Position_eq_components (a b : Position.t) :
  Position.__eq__ a b = true <->
  (Position.x a =? Position.x b)%float = true /\
  (Position.y a =? Position.y b)%float = true /\
  (Position.z a =? Position.z b)%float = true.
Proof.
  unfold Position.__eq__. rewrite <- !ne_false.
  destruct (PyNum.ne (Position.x a) (Position.x b)),
           (PyNum.ne (Position.y a) (Position.y b)),
           (PyNum.ne (Position.z a) (Position.z b)); simpl;
    intuition congruence.
Qed.

Lemma Position_eq_sym (a b : Position.t) :
  Position.__eq__ a b = Position.__eq__ b a.
Proof.
  unfold Position.__eq__, PyNum.ne.
  rewrite (float_eqb_sym (Position.x a)), (float_eqb_sym (Position.y a)),
    (float_eqb_sym (Position.z a)). reflexivity.
Qed.

Lemma Position_eq_trans (a b c : Position.t) :
  Position.__eq__ a b = true -> Position.__eq__ b c = true ->
  Position.__eq__ a c = true.
Proof.
  rewrite !Position_eq_components.
  intros (X1 & Y1 & Z1) (X2 & Y2 & Z2).
  repeat split; eapply float_eqb_trans; eassumption.
Qed.

(** X16: [Position] equality is symmetric and transitive, it holds exactly
    when the three pairs of components are equal as floats, and a position
    equals itself exactly when none of its components is a NaN. *)
Theorem Position_eq_is_a_partial_equivalence :
  (forall a b, Position.__eq__ a b = Position.__eq__ b a) /\
  (forall a b c, Position.__eq__ a b = true -> Position.__eq__ b c = true ->
                 Position.__eq__ a c = true) /\
  (forall a b,
     Position.__eq__ a b = true <->
     (Position.x a =? Position.x b)%float = true /\
     (Position.y a =? Position.y b)%float = true /\
     (Position.z a =? Position.z b)%float = true) /\
  Position.__eq__ (Position.mk nan 0 0) (Position.mk nan 0 0) = false /\
  Position.__eq__ (Position.mk 0 0 0) (Position.mk (-0) 0 0) = true.
Proof.
  split; [exact Position_eq_sym|]. split; [exact Position_eq_trans|].
  split; [exact Position_eq_components|]. split; reflexivity.
Qed.

(** X17: [Node] equality holds exactly when the names are equal and the
    positions are equal; it is symmetric and transitive. *)
Theorem Node_eq_compares_name_and_position :
  (forall a b,
     NodeExt.__eq__ a b = true <->
     Node.name a = Node.name b /\
     Position.__eq__ (Node.position a) (Node.position b) = true) /\
  (forall a b, NodeExt.__eq__ a b = NodeExt.__eq__ b a) /\
  (forall a b c, NodeExt.__eq__ a b = true -> NodeExt.__eq__ b c = true ->
                 NodeExt.__eq__ a c = true).
Proof.
  assert (Hchar : forall a b,
            NodeExt.__eq__ a b = true <->
            Node.name a = Node.name b /\
            Position.__eq__ (Node.position a) (Node.position b) = true).
  { intros a b. unfold NodeExt.__eq__, NodeExt.name_ne.
    destruct (Node.name a) as [s|], (Node.name b) as [t|]; simpl;
      try (split; [discriminate | intros [E _]; discriminate]).
    - destruct (String.eqb_spec s t) as [->|Hne]; simpl.
      + destruct (Position.__eq__ _ _); simpl; intuition congruence.
      + split; [discriminate | intros [E _]; congruence].
    - destruct (Position.__eq__ _ _); simpl; intuition congruence. }
  split; [exact Hchar|]. split.
  - intros a b.
    destruct (NodeExt.__eq__ a b) eqn:E1, (NodeExt.__eq__ b a) eqn:E2;
      try reflexivity.
    + apply Hchar in E1. destruct E1 as [N P].
      rewrite Position_eq_sym in P.
      assert (NodeExt.__eq__ b a = true) by (apply Hchar; auto). congruence.
    + apply Hchar in E2. destruct E2 as [N P].
      rewrite Position_eq_sym in P.
      assert (NodeExt.__eq__ a b = true) by (apply Hchar; auto). congruence.
  - intros a b c H1 H2. apply Hchar in H1, H2. apply Hchar.
    destruct H1 as [N1 P1], H2 as [N2 P2]. split; [congruence|].
    eapply Position_eq_trans; eassumption.
Qed.

Lemma ne_opt_sym (a b : option float) : PyNum.ne_opt a b = PyNum.ne_opt b a.
Proof.
  destruct a, b; simpl; try reflexivity. unfold PyNum.ne.
  rewrite float_eqb_sym. reflexivity.
Qed.

Lemma same_value_trans (a b c : option float) :
  Spec.same_value a b -> Spec.same_value b c -> Spec.same_value a c.
Proof.
  destruct a, b, c; simpl; try tauto. apply float_eqb_trans.
Qed.

(** X18: [Link] equality is symmetric and transitive. *)
Theorem Link_eq_is_a_partial_equivalence :
  (forall a b, Link.__eq__ a b = Link.__eq__ b a) /\
  (forall a b c, Link.__eq__ a b = true -> Link.__eq__ b c = true ->
                 Link.__eq__ a c = true).
Proof.
  split.
  - intros a b. unfold Link.__eq__.
    rewrite (String.eqb_sym (Link.node1_Name a)),
      (String.eqb_sym (Link.node2_Name a)),
      (ne_opt_sym (Link.length a)), (ne_opt_sym (Link.angleRad a)).
    reflexivity.
  - assert (Hchar : forall a b,
              Link.__eq__ a b = true <->
              Link.node1_Name a = Link.node1_Name b /\
              Link.node2_Name a = Link.node2_Name b /\
              Spec.same_value (Link.length a) (Link.length b) /\
              Spec.same_value (Link.angleRad a) (Link.angleRad b)).
    { intros a b. unfold Link.__eq__.
      rewrite <- !ne_opt_same_value, <- !String.eqb_eq.
      destruct (String.eqb (Link.node1_Name a) (Link.node1_Name b));
        destruct (String.eqb (Link.node2_Name a) (Link.node2_Name b));
        destruct (PyNum.ne_opt (Link.length a) (Link.length b));
        destruct (PyNum.ne_opt (Link.angleRad a) (Link.angleRad b));
        simpl; intuition congruence. }
    intros a b c H1 H2. apply Hchar in H1, H2. apply Hchar.
    destruct H1 as (A1 & A2 & A3 & A4), H2 as (B1 & B2 & B3 & B4).
    repeat split; try congruence; eapply same_value_trans; eassumption.
Qed.

(** X19: [+=] and [-=] never update the position and never return it: with
    a float they fall through both tests and return [None], with a
    [Position] the membership test raises [AttributeError], and with the
    class [float] or [int] itself the first addition raises [TypeError]. *)
Theorem in_place_add_and_sub_never_update (self : Position.t) :
  (forall f,
     PositionExt.__iadd__ (PositionExt.OFloat f) self
     = (Ok PositionExt.NoneValue, self) /\
     PositionExt.__isub__ (PositionExt.OFloat f) self
     = (Ok PositionExt.NoneValue, self)) /\
  (forall p,
     PositionExt.__iadd__ (PositionExt.OPosition p) self
     = (Raise AttributeError, self) /\
     PositionExt.__isub__ (PositionExt.OPosition p) self
     = (Raise AttributeError, self)) /\
  PositionExt.__iadd__ PositionExt.OClass self = (Raise TypeError, self) /\
  PositionExt.__isub__ PositionExt.OClass self = (Raise TypeError, self) /\
  (forall other,
     snd (PositionExt.__iadd__ other self) = self /\
     fst (PositionExt.__iadd__ other self) <> Ok PositionExt.Self /\
     snd (PositionExt.__isub__ other self) = self /\
     fst (PositionExt.__isub__ other self) <> Ok PositionExt.Self).
Proof.
  repeat split; try reflexivity;
    try (destruct other; reflexivity);
    destruct other; discriminate.
Qed.

(** X20: vector addition is commutative; subtracting what was added does
    not always give the vector back. *)
Theorem add_commutes_and_sub_does_not_undo_it :
  (forall a b, PositionExt.__add__ a b = PositionExt.__add__ b a) /\
  (exists a b,
     Position.__eq__ (Position.__sub__ (PositionExt.__add__ a b) b) a = false).
Proof.
  split.
  - intros a b. unfold PositionExt.__add__.
    rewrite (float_add_comm (Position.x a)), (float_add_comm (Position.y a)),
      (float_add_comm (Position.z a)). reflexivity.
  - exists (Position.mk 0x1p-60 0 0), (Position.mk 1 0 0). reflexivity.
Qed.

(** X21: [*] scales by a float and multiplies two positions component by
    component, commutatively; [*=] with a float leaves in [self] what [*]
    returns, but with a [Position] it changes nothing and returns [None]. *)
Theorem mul_and_in_place_mul (self : Position.t) :
  (forall f,
     PositionExt.__mul__ self (PositionExt.OFloat f)
     = Some (Position.mk (Position.x self * f) (Position.y self * f)
                         (Position.z self * f)) /\
     PositionExt.__imul__ (PositionExt.OFloat f) self
     = (Ok PositionExt.Self,
        Position.mk (Position.x self * f) (Position.y self * f)
                    (Position.z self * f))) /\
  (forall p,
     PositionExt.__mul__ self (PositionExt.OPosition p)
     = Some (Position.mk (Position.x self * Position.x p)
                         (Position.y self * Position.y p)
                         (Position.z self * Position.z p)) /\
     PositionExt.__mul__ self (PositionExt.OPosition p)
     = PositionExt.__mul__ p (PositionExt.OPosition self) /\
     PositionExt.__imul__ (PositionExt.OPosition p) self
     = (Ok PositionExt.NoneValue, self)) /\
  (forall other,
     PositionExt.__rmul__ self other = PositionExt.__mul__ self other).
Proof.
  destruct self as [sx sy sz]. split; [|split].
  - intros f. split; reflexivity.
  - intros [px py pz]. split; [reflexivity|]. split; [|reflexivity].
    unfold PositionExt.__mul__. simpl.
    rewrite (float_mul_comm sx), (float_mul_comm sy), (float_mul_comm sz).
    reflexivity.
  - reflexivity.
Qed.

(** X22: [/] and [/=] by a float agree: by zero both raise
    [ZeroDivisionError] and [/=] leaves the position as it was; otherwise
    [/=] leaves in [self] the position [/] returns. *)
Theorem div_and_in_place_div (self : Position.t) (f : float) :
  ((f =? 0)%float = true ->
   PositionExt.__truediv__ self (PositionExt.OFloat f)
   = Raise ZeroDivisionError /\
   Position.__idiv__ f self = (Raise ZeroDivisionError, self)) /\
  ((f =? 0)%float = false ->
   PositionExt.__truediv__ self (PositionExt.OFloat f)
   = Ok (Some (Position.mk (Position.x self / f) (Position.y self / f)
                           (Position.z self / f))) /\
   Position.__idiv__ f self
   = (Ok tt, Position.mk (Position.x self / f) (Position.y self / f)
                         (Position.z self / f))).
Proof.
  destruct self as [sx sy sz].
  unfold PositionExt.__truediv__, Position.__idiv__, PyNum.truediv, bind, get,
    lift, modify, rbind. simpl.
  split; intros ->; split; reflexivity.
Qed.

Section SetFacts.
Context `{B : Builtins}.

(** X23: [set] from a string writes all three components or none: when it
    raises the position is as it was, and when the first three cells parse
    the position holds exactly their values.  [set] from a tuple is read
    back by [getTup], the string takes precedence over the tuple, and
    [set()] changes nothing. *)
Theorem set_writes_all_or_nothing
    (str : string) (tup : option (float * float * float))
    (self : Position.t) :
  (forall e, fst (PositionExt.set (Some str) tup self) = Raise e ->
             snd (PositionExt.set (Some str) tup self) = self) /\
  (forall c0 c1 c2 rest vx vy vz,
     PyStr.split_on ","
       (PyStr.strip (PositionExt.remove_char ")"
                       (PositionExt.remove_char "(" str)))
     = c0 :: c1 :: c2 :: rest ->
     float_of_string c0 = Ok vx -> float_of_string c1 = Ok vy ->
     float_of_string c2 = Ok vz ->
     PositionExt.set (Some str) tup self = (Ok tt, Position.mk vx vy vz)) /\
  (forall t,
     fst (PositionExt.set None (Some t) self) = Ok tt /\
     PositionExt.getTup (snd (PositionExt.set None (Some t) self)) = t) /\
  PositionExt.set None None self = (Ok tt, self).
Proof.
  split; [|split; [|split]].
  - intros e. unfold PositionExt.set, bind, lift, modify, rbind.
    repeat match goal with
           | |- context [match ?x with _ => _ end] =>
               destruct x; simpl; try discriminate; try reflexivity
           end.
  - intros c0 c1 c2 rest vx vy vz Hc H0 H1 H2.
    unfold PositionExt.set, bind, lift, modify, rbind. rewrite Hc. simpl.
    rewrite H0, H1, H2. reflexivity.
  - intros [[a b] c]. split; reflexivity.
  - reflexivity.
Qed.

End SetFacts.

Section MoreModelFacts.
Context `{B : Builtins} `{K : SceneSink}.

Lemma scan_kinds_uts (data : list string) (self s1 : TrussController.t) :
  (forall l, In l data -> Spec.line_kind l <> Spec.KMaterial) ->
  for_each data Spec.step (TrussController.set_truss Spec.cleared self)
  = (Ok tt, s1) ->
  Inv.uts_of s1 = None.
Proof.
  intros Hno Hscan.
  pose proof (scan_uts data (TrussController.set_truss Spec.cleared self) Hno)
    as Hu.
  rewrite Hscan in Hu. exact Hu.
Qed.

(** X24: when the data has no material line and the scan and the geometry
    step return, the import raises [TypeError] while formatting the unset
    ultimate strength, and no widget is written: the controller is left as
    the geometry step left it.  The empty file is such a case. *)
Theorem import_without_material_raises
    (data : list string) (self s1 s2 : TrussController.t) :
  (forall l, In l data -> Spec.line_kind l <> Spec.KMaterial) ->
  TrussController.scan data (snd (TrussController.resetModel self))
  = (Ok tt, s1) ->
  TrussController.calcLinkVals s1 = (Ok tt, s2) ->
  TrussController.ImportFromFile data self = (Raise TypeError, s2).
Proof.
  intros Hno Hscan Hcalc.
  rewrite resetModel_cleared, scan_lines in Hscan. simpl in Hscan.
  pose proof (scan_kinds_uts data self s1 Hno Hscan) as Hu.
  rewrite ImportFromFile_unfold. unfold bind at 1. rewrite Hscan.
  unfold Spec.finish. unfold bind at 1. rewrite Hcalc.
  unfold bind at 1.
  assert (Hrep : TrussController.displayReport s2 = (Raise TypeError, s2)).
  { rewrite calcLinkVals_truss in Hcalc. injection Hcalc as _ <-.
    unfold TrussController.displayReport, TrussView.displayReport, bind, lift.
    unfold TrussView.report_header. simpl.
    unfold Inv.uts_of in Hu.
    destruct s1 as [[ti ls ns [u y e f]] v]. simpl in *. subst u.
    destruct f; reflexivity. }
  rewrite Hrep. reflexivity.
Qed.

(** X25: a material line whose three values parse overwrites the three
    material values, whatever they were, and leaves the static factor, the
    title, the nodes and the links: the last material line wins. *)
Theorem material_line_overwrites
    (line : string) (s : TrussController.t) (kw a b c : string)
    (rest : list string) (u y e : float) :
  Spec.line_kind line = Spec.KMaterial ->
  PyStr.split (PyStr.strip line) = kw :: a :: b :: c :: rest ->
  float_of_string (PyStr.strip_char "," a) = Ok u ->
  float_of_string (PyStr.strip_char "," b) = Ok y ->
  float_of_string (PyStr.strip_char "," c) = Ok e ->
  Spec.step line s =
  (Ok tt,
   TrussController.set_truss
     (TrussModel.set_material
        (Material.mk (Some u) (Some y) (Some e)
           (Material.staticFactor
              (TrussModel.material (TrussController.truss s))))
        (TrussController.truss s)) s).
Proof.
  intros Hk Hf Ha Hb Hc. rewrite step_kind, Hk.
  unfold TrussController.importMaterial.
  unfold bind at 1. unfold lift at 1.
  change (PyStr.index [line] 0) with (@Ok string line). cbv iota.
  rewrite Hf.
  unfold TrussController.on_material, TrussController.on_truss,
    TrussController.float_field, bind, lift, modify, rbind. simpl.
  rewrite Ha. simpl. rewrite Hb. simpl. rewrite Hc. reflexivity.
Qed.

End MoreModelFacts.

(* ================================================================= *)
(** ** The further theorems at the reference runtime *)

(** A title line with one word after two node lines' worth of data. *)
Lemma title_with_one_word_stops_the_import :
  @TrussController.ImportFromFile Ref.builtins Ref.sink
    ["node, A, 0, 0"; "title x"; "node, B, 3, 4"]%string Ref.controller0
  = (Raise ValueError,
     snd (@TrussController.scan Ref.builtins Ref.sink
            ["node, A, 0, 0"%string] Examples.fresh)).
Proof.
  apply (@import_stops_at_the_first_raise Ref.builtins Ref.sink
           ["node, A, 0, 0"%string] "title x" ["node, B, 3, 4"%string]
           ValueError Ref.controller0
           (snd (@TrussController.scan Ref.builtins Ref.sink
                   ["node, A, 0, 0"%string] Examples.fresh)));
    reflexivity.
Defined.

(** The import of the full file returns. *)
Lemma full_file_has_material_and_links :
  fst (@TrussController.ImportFromFile Ref.builtins Ref.sink
         Examples.full_file Ref.controller0) = Ok tt /\
  (let final := TrussController.truss
                  (snd (@TrussController.ImportFromFile Ref.builtins Ref.sink
                          Examples.full_file Ref.controller0)) in
   (exists line,
      In line Examples.full_file /\ Spec.line_kind line = Spec.KMaterial) /\
   (exists line name node1 node2,
      In line Examples.full_file /\
      Spec.declares_link line name node1 node2) /\
   Spec.material_set (TrussModel.material final) /\
   TrussModel.links final <> [] /\
   (forall l, In l (TrussModel.links final) -> Spec.derived l)).
Proof.
  split; [reflexivity|].
  apply (@import_returns_only_with_material_and_links Ref.builtins Ref.sink
           Examples.full_file Ref.controller0).
  reflexivity.
Defined.

(** The geometry step and the report on the full file. *)
Lemma full_file_geometry_then_report :
  (forall l, In l (Spec.links_of Examples.derived) -> Spec.derived l) /\
  (Spec.material_set
     (TrussModel.material (TrussController.truss Examples.derived)) ->
   Spec.links_of Examples.derived <> [] ->
   fst (@TrussController.displayReport Ref.builtins Ref.sink Examples.derived)
   = Ok tt).
Proof.
  apply (@geometry_then_report Ref.builtins Ref.sink Examples.full_file
           Ref.controller0 Examples.scanned Examples.derived);
    reflexivity.
Defined.

(** A node line with three fields. *)
Lemma node_line_with_three_fields :
  @Spec.step Ref.builtins Ref.sink "node, A, 0" Ref.controller0
  = (Ok tt, Ref.controller0).
Proof.
  apply (@short_node_line_is_skipped Ref.builtins Ref.sink "node, A, 0"
           Ref.controller0); [reflexivity | simpl; lia].
Defined.

(** A link line with three tokens. *)
Lemma link_line_with_three_tokens :
  @Spec.step Ref.builtins Ref.sink "link L1, A" Ref.controller0
  = (Raise IndexError, Ref.controller0).
Proof.
  apply (@short_link_line_raises Ref.builtins Ref.sink "link L1, A"
           Ref.controller0); [reflexivity | simpl; lia].
Defined.

(** A title line with four words after the keyword. *)
Lemma title_line_with_four_words :
  (List.length (PyStr.split (PyStr.strip "title A B C D")) < 4 ->
   @Spec.step Ref.builtins Ref.sink "title A B C D" Ref.controller0
   = (Raise ValueError, Ref.controller0)) /\
  (forall kw a b c rest,
     PyStr.split (PyStr.strip "title A B C D") = kw :: a :: b :: c :: rest ->
     @Spec.step Ref.builtins Ref.sink "title A B C D" Ref.controller0 =
     (Ok tt,
      TrussController.set_truss
        (TrussModel.set_title
           (Some (PyStr.strip_char "'" (a ++ " " ++ b ++ " " ++ c)%string))
           (TrussController.truss Ref.controller0)) Ref.controller0)).
Proof.
  apply (@title_line_takes_three_words Ref.builtins Ref.sink "title A B C D"
           Ref.controller0).
  reflexivity.
Defined.

(** A material line with one value. *)
Lemma material_line_with_one_value :
  @Spec.step Ref.builtins Ref.sink "material 1" Ref.controller0
  = (Raise IndexError,
     TrussController.set_truss
       (TrussModel.set_material
          (Material.set_uts (Some 1%float)
             (TrussModel.material (TrussController.truss Ref.controller0)))
          (TrussController.truss Ref.controller0)) Ref.controller0).
Proof.
  exact (@material_line_writes_as_it_parses Ref.builtins Ref.sink
           "material 1" Ref.controller0 "material" "1" [] eq_refl eq_refl).
Defined.

(** A node line whose node is called link1. *)
Lemma node_called_link1_is_not_added :
  Spec.nodes_of
    (snd (@Spec.step Ref.builtins Ref.sink "node, link1, 0, 0" Ref.controller0))
  = Spec.nodes_of Ref.controller0.
Proof.
  apply (@line_with_link_never_adds_a_node Ref.builtins Ref.sink
           "node, link1, 0, 0" Ref.controller0).
  reflexivity.
Defined.

(** A second link line for L1, with the ends swapped. *)
Lemma second_L1_is_skipped :
  @Spec.step Ref.builtins Ref.sink "link L1, B, A" Examples.scanned
  = (Ok tt, Examples.scanned).
Proof.
  apply (@second_link_of_a_name_is_skipped Ref.builtins Ref.sink
           "link L1, B, A" Examples.scanned "L1" "B" "A").
  - split; [reflexivity | exists "link"%string, []; reflexivity].
  - reflexivity.
Defined.

(** The import of the empty file. *)
Lemma empty_file_raises :
  @TrussController.ImportFromFile Ref.builtins Ref.sink [] Ref.controller0
  = (Raise TypeError, Examples.fresh).
Proof.
  apply (@import_without_material_raises Ref.builtins Ref.sink []
           Ref.controller0 Examples.fresh Examples.fresh);
    [intros l [] | reflexivity | reflexivity].
Defined.

(** A complete material line. *)
Lemma material_1_2_3 :
  @Spec.step Ref.builtins Ref.sink "material 1, 2, 3" Ref.controller0
  = (Ok tt,
     TrussController.set_truss
       (TrussModel.set_material
          (Material.mk (Some 1%float) (Some 2%float) (Some 3%float)
             (Material.staticFactor
                (TrussModel.material (TrussController.truss Ref.controller0))))
          (TrussController.truss Ref.controller0)) Ref.controller0).
Proof.
  apply (@material_line_overwrites Ref.builtins Ref.sink "material 1, 2, 3"
           Ref.controller0 "material" "1," "2," "3" []); reflexivity.
Defined.
